(** * goshs: the file server of internal/myhttp/fileserver.go

    A shallow embedding of the request pipeline of [FileServer]: Basic-auth
    wrapper, method dispatch, path resolution, directory listing, upload and
    the two error pages, together with the functions of the Go standard
    library the pipeline calls ([path.Clean], [path.Join], [strings.Split],
    [strings.Join], [strings.ToLower], [url.PathEscape], [http.Error], ...).

    Go strings are byte strings: they are [string] here, one [ascii] per byte;
    a [[]byte] that is built index by index is a [list ascii]. *)

From Stdlib Require Import Ascii String.
From stdpp Require Import base option list gmap strings sorting.
From stdpp Require Import pretty.

Local Open Scope stdpp_scope.

(** Byte literals. *)
Abbreviation c_slash := ("/"%char).
Abbreviation c_dot := ("."%char).

(** ** Bytes and strings *)

(** [s[0] == c], false on the empty string. *)
Definition byte_at_is (c : ascii) (s : string) : bool :=
  match s with
  | String d _ => Ascii.eqb d c
  | EmptyString => false
  end.

(** [s[1:]]; the loops below only take it of a non-empty string. *)
Definition string_tail (s : string) : string :=
  match s with
  | String _ t => t
  | EmptyString => EmptyString
  end.

(** [r == n || path[r] == '/'] for the suffix [s = path[r:]]. *)
Definition at_end_or_slash (s : string) : bool :=
  match s with
  | String d _ => Ascii.eqb d c_slash
  | EmptyString => true
  end.

(** ** Package path *)

(** The write side of [lazybuf]: [out] holds the bytes [buf[:w]] with the
    last byte written first, so that [out.w] is [length out], [out.append c]
    is [c :: out] and [out.w--] drops the head. *)
Definition lazybuf := list ascii.

(** [out.w--; for out.w > dotdot && out.index(out.w) != '/' { out.w-- }]:
    the byte that [out.w--] has just dropped is the one at index [out.w]. *)
Fixpoint backtrack (dotdot : nat) (out : lazybuf) : lazybuf :=
  match out with
  | [] => []
  | c :: out' =>
      if bool_decide (dotdot < length out') && negb (Ascii.eqb c c_slash)
      then backtrack dotdot out'
      else out'
  end.

(** [for ; r < n && path[r] != '/'; r++ { out.append(path[r]) }]; returns the
    suffix left to read and the buffer. *)
Fixpoint copy_element (s : string) (out : lazybuf) : string * lazybuf :=
  match s with
  | String c s' =>
      if Ascii.eqb c c_slash then (s, out) else copy_element s' (c :: out)
  | EmptyString => (s, out)
  end.

(** The main loop of [path.Clean], [for r < n { switch ... }], on the suffix
    [s = path[r:]].  Every iteration reads at least one byte, so [fuel] is
    only the length of the path. *)
Fixpoint clean_loop (fuel : nat) (rooted : bool) (s : string)
    (out : lazybuf) (dotdot : nat) : lazybuf :=
  match fuel with
  | O => out
  | S fuel =>
      if bool_decide (s = "") then out
      else if byte_at_is c_slash s then
        (* empty path element *)
        clean_loop fuel rooted (string_tail s) out dotdot
      else if byte_at_is c_dot s && at_end_or_slash (string_tail s) then
        (* . element *)
        clean_loop fuel rooted (string_tail s) out dotdot
      else if byte_at_is c_dot s && byte_at_is c_dot (string_tail s)
              && at_end_or_slash (string_tail (string_tail s)) then
        (* .. element: remove to last / *)
        let s2 := string_tail (string_tail s) in
        if bool_decide (dotdot < length out) then
          (* can backtrack *)
          clean_loop fuel rooted s2 (backtrack dotdot out) dotdot
        else if negb rooted then
          (* cannot backtrack, but not rooted, so append .. element *)
          let out1 := if bool_decide (0 < length out) then c_slash :: out else out in
          let out2 := c_dot :: c_dot :: out1 in
          clean_loop fuel rooted s2 out2 (length out2)
        else clean_loop fuel rooted s2 out dotdot
      else
        (* real path element: add slash if needed, copy element *)
        let out1 :=
          if (rooted && negb (length out =? 1)) || (negb rooted && negb (length out =? 0))
          then c_slash :: out else out in
        let '(s', out2) := copy_element s out1 in
        clean_loop fuel rooted s' out2 dotdot
  end.

(** [out.string()] *)
Definition lazybuf_string (out : lazybuf) : string :=
  string_of_list_ascii (rev out).

(** [path.Clean] *)
Definition path_Clean (path : string) : string :=
  if bool_decide (path = "") then "."
  else
    let rooted := byte_at_is c_slash path in
    let n := String.length path in
    let out :=
      if rooted then clean_loop n rooted (string_tail path) [c_slash] 1
      else clean_loop n rooted path [] 0 in
    (* Turn empty string into "." *)
    if length out =? 0 then "." else lazybuf_string out.

(** [strings.Join(elems, sep)] *)
Fixpoint strings_Join (elems : list string) (sep : string) : string :=
  match elems with
  | [] => ""
  | [e] => e
  | e :: rest => e +:+ sep +:+ strings_Join rest sep
  end.

(** [strings.Split(s, sep)] for a separator of one byte, the only use the
    server makes of it: [cur] holds the bytes of the current field, last
    byte first. *)
Fixpoint split_go (sep : ascii) (cur : list ascii) (s : string) : list string :=
  match s with
  | EmptyString => [string_of_list_ascii (rev cur)]
  | String c s' =>
      if Ascii.eqb c sep
      then string_of_list_ascii (rev cur) :: split_go sep [] s'
      else split_go sep (c :: cur) s'
  end.

Definition strings_Split (s : string) (sep : ascii) : list string :=
  split_go sep [] s.

(** [path.Join(elem...)]: the elements from the first non-empty one on,
    joined with slashes and cleaned. *)
Fixpoint path_Join (elem : list string) : string :=
  match elem with
  | [] => ""
  | e :: rest =>
      if bool_decide (e = "") then path_Join rest
      else path_Clean (strings_Join elem "/")
  end.

(** ** Package net/url *)

(** [lo <= c && c <= hi] on bytes. *)
Definition byte_between (lo hi c : ascii) : bool :=
  (N_of_ascii lo <=? N_of_ascii c)%N && (N_of_ascii c <=? N_of_ascii hi)%N.

Definition byte_in (c : ascii) (cs : string) : bool :=
  bool_decide (c ∈ list_ascii_of_string cs).

(** [shouldEscape(c, encodePathSegment)], the mode of [PathEscape] and
    [PathUnescape]. *)
Definition shouldEscape (c : ascii) : bool :=
  (* §2.3 Unreserved characters (alphanum) *)
  if byte_between "a" "z" c || byte_between "A" "Z" c || byte_between "0" "9" c
  then false
  (* §2.3 Unreserved characters (mark) *)
  else if byte_in c "-_.~" then false
  (* §2.2 Reserved characters: a path segment keeps : @ & = + $ *)
  else if byte_in c "$&+,/:;=?@" then byte_in c "/;,?"
  (* Everything else must be escaped. *)
  else true.

Definition upperhex : string := "0123456789ABCDEF".

(** [upperhex[i]] *)
Definition upperhex_at (i : N) : ascii :=
  default "0"%char (String.get (N.to_nat i) upperhex).

(** [escape(s, encodePathSegment)]: the counting pass, then the pass that
    writes [%XX] for every byte that must be escaped. *)
Fixpoint escape_count (s : string) : nat :=
  match s with
  | EmptyString => 0
  | String c s' => (if shouldEscape c then 1 else 0) + escape_count s'
  end.

Fixpoint escape_write (s : string) : string :=
  match s with
  | EmptyString => EmptyString
  | String c s' =>
      if shouldEscape c
      then String "%" (String (upperhex_at (N.shiftr (N_of_ascii c) 4))
             (String (upperhex_at (N.land (N_of_ascii c) 15)) (escape_write s')))
      else String c (escape_write s')
  end.

Definition url_PathEscape (s : string) : string :=
  if escape_count s =? 0 then s else escape_write s.

Definition ishex (c : ascii) : bool :=
  byte_between "0" "9" c || byte_between "a" "f" c || byte_between "A" "F" c.

Definition unhex (c : ascii) : N :=
  if byte_between "0" "9" c then (N_of_ascii c - N_of_ascii "0")%N
  else if byte_between "a" "f" c then (N_of_ascii c - N_of_ascii "a" + 10)%N
  else if byte_between "A" "F" c then (N_of_ascii c - N_of_ascii "A" + 10)%N
  else 0%N.

(** The result of [PathUnescape]: the decoded string, or [EscapeError] with
    the offending bytes. *)
Inductive unescaped :=
| Unescaped (s : string)
| EscapeError (bad : string).

(** First pass of [unescape]: count the [%], check that they are well
    formed.  [s] is the suffix [s[i:]]. *)
Fixpoint unescape_check (s : string) (n : nat) : nat + string :=
  match s with
  | EmptyString => inl n
  | String c s1 =>
      if Ascii.eqb c "%" then
        match s1 with
        | String h1 (String h2 s3) =>
            if ishex h1 && ishex h2 then unescape_check s3 (S n)
            else inr (String c (String h1 (String h2 EmptyString)))
        | _ => inr s
        end
      else unescape_check s1 n
  end.

(** Second pass of [unescape]: every [%XX] becomes the byte
    [unhex(X)<<4 | unhex(X)]; every other byte, [+] too in this mode, is
    copied. *)
Fixpoint unescape_write (s : string) : string :=
  match s with
  | EmptyString => EmptyString
  | String c s1 =>
      if Ascii.eqb c "%" then
        match s1 with
        | String h1 (String h2 s3) =>
            String (ascii_of_N (N.lor (N.shiftl (unhex h1) 4) (unhex h2)))
                   (unescape_write s3)
        | _ => EmptyString
        end
      else String c (unescape_write s1)
  end.

Definition url_PathUnescape (s : string) : unescaped :=
  match unescape_check s 0 with
  | inr bad => EscapeError bad
  | inl n => if n =? 0 then Unescaped s else Unescaped (unescape_write s)
  end.

(** ** Package strings *)

(** The ASCII pass of [strings.ToLower]: [c += 'a' - 'A'] for an upper-case
    letter. *)
Definition lower_byte (c : ascii) : ascii :=
  if byte_between "A" "Z" c
  then ascii_of_N (N_of_ascii c + (N_of_ascii "a" - N_of_ascii "A"))
  else c.

Fixpoint map_bytes (f : ascii → ascii) (s : string) : string :=
  match s with
  | EmptyString => EmptyString
  | String c s' => String (f c) (map_bytes f s')
  end.

(** [c >= utf8.RuneSelf] for some byte of [s]. *)
Fixpoint has_non_ascii (s : string) : bool :=
  match s with
  | EmptyString => false
  | String c s' => (128 <=? N_of_ascii c)%N || has_non_ascii s'
  end.

(** [a < b] on Go strings: byte-wise lexicographic order, a proper prefix
    first. *)
Definition string_lt (a b : string) : bool := String.ltb a b.

(** ** The data of the file server *)

Record item := { URI : string; Name : string }.

Record directory := { Path : string; Content : list item }.

(** FileServer holds the fileserver information *)
Record FileServer := {
  Port : Z;
  Webroot : string;
  SSL : bool;
  SelfSigned : bool;
  MyKey : string;
  MyCert : string;
  BasicAuth : string
}.

(** ** What the model takes from outside

    Functions of the Go library and of the collaborating packages whose
    results the server passes on without looking into them. *)
Record Library := {
  (** [strings.Map(unicode.ToLower, s)], the branch [strings.ToLower] takes
      for a string with a byte outside ASCII *)
  unicode_ToLower : string → string;
  (** [sort.Slice(items, less)]: the slice after the call, for [less] given
      on the elements rather than on their indices *)
  sort_Slice : (item → item → bool) → list item → list item;
  (** [parseBasicAuth(auth)] of net/http: user name and password of a
      ["Basic ..."] Authorization header *)
  parseBasicAuth : string → option (string * string);
  (** [template.New(name)], [Parse(text)], [Execute(w, data)] of
      html/template: the chunks the template writes, one per call of
      [w.Write] *)
  template_Execute : string → string → option directory → list string;
  (** [myhtml.GetTemplate(name)]: the text of a template of package myhtml,
      which is not among the sources *)
  myhtml_GetTemplate : string → string;
  (** the value [http.Redirect] gives the Location header for a request
      path and a target: the target made absolute against the request path
      and cleaned, non-ASCII bytes escaped *)
  Redirect_location : string → string → string;
  (** the short HTML body [http.Redirect] writes for a GET request *)
  Redirect_body : string → nat → string
}.

(** ** The world of one request *)

Inductive errno := ENOENT | EACCES | EPERM | EISDIR | ENOTDIR | ENOSPC | EIO.

Global Instance errno_eq_dec : EqDecision errno.
Proof. solve_decision. Defined.

Definition errno_text (e : errno) : string :=
  match e with
  | ENOENT => "no such file or directory"
  | EACCES => "permission denied"
  | EPERM => "operation not permitted"
  | EISDIR => "is a directory"
  | ENOTDIR => "not a directory"
  | ENOSPC => "no space left on device"
  | EIO => "input/output error"
  end.

(** The system calls of the server that can fail for reasons the disk
    contents do not show (permissions, quota, a concurrent removal). *)
Inductive syscall := SysOpen | SysStat | SysReaddir | SysCreate | SysWrite.

(** What [file.Readdir] reports for one child. *)
Record FileInfo := { fi_Name : string; fi_IsDir : bool }.

(** A directory carries the children [Readdir(-1)] reports, in the order it
    reports them. *)
Inductive node :=
| RegularFile (data : string)
| Directory (entries : list FileInfo).

(** One line of the log sink. *)
Inductive LogRecord :=
| AccessLog (remoteAddr method url proto status : string)
| MessageLog (message : string)
| StdLog (line : string).

Global Instance LogRecord_eq_dec : EqDecision LogRecord.
Proof. solve_decision. Defined.

Record World := {
  disk : gmap string node;
  fault : syscall → string → option errno;
  logs : list LogRecord
}.

(** [http.ResponseWriter]: the header map of the handler, the status line
    and headers once [WriteHeader] has sent them, the body written so far. *)
Record ResponseWriter := {
  Header : gmap string string;
  sent : option (nat * gmap string string);
  body : string
}.

(** The part of a multipart form a file field holds: [Filename] of the
    [FileHeader], and what [ioutil.ReadAll] gets from the [File]: the bytes
    read and the error that ended the reading, if any. *)
Record FilePart := {
  Filename : string;
  part_data : string;
  part_err : option string
}.

(** The result of [req.FormFile(key)]. *)
Inductive FormFileResult :=
| FormFileOk (part : FilePart)
| FormFileErr (err : string).

Record Request := {
  Method : string;
  URL_Path : string;
  Proto : string;
  RemoteAddr : string;
  Header_Authorization : string;
  FormFile : string → FormFileResult
}.

(** ** Handlers as state transformers

    A handler runs on the world and the response writer; it returns
    normally or panics with a value, and what it did before the panic
    stays done. *)
Record State := { world : World; resp : ResponseWriter }.

Inductive outcome (A : Type) :=
| Normal (a : A)
| Panicking (v : string).
Arguments Normal {A} a.
Arguments Panicking {A} v.

Definition M (A : Type) : Type := State → State * outcome A.

Global Instance M_ret : MRet M := λ A a st, (st, Normal a).

Global Instance M_bind : MBind M := λ A B f m st,
  match m st with
  | (st', Normal a) => f a st'
  | (st', Panicking v) => (st', Panicking v)
  end.

Definition panic {A} (v : string) : M A := λ st, (st, Panicking v).

Definition get_world : M World := λ st, (st, Normal (world st)).

Definition modify_world (f : World → World) : M unit :=
  λ st, ({| world := f (world st); resp := resp st |}, Normal tt).

Definition get_resp : M ResponseWriter := λ st, (st, Normal (resp st)).

Definition modify_resp (f : ResponseWriter → ResponseWriter) : M unit :=
  λ st, ({| world := world st; resp := f (resp st) |}, Normal tt).

Definition newline : string := String "010" EmptyString.
Definition quote : string := String "034" EmptyString.

(** The value of a nil dereference. *)
Definition nil_dereference : string :=
  "runtime error: invalid memory address or nil pointer dereference".

(** *** The log sink *)

Definition log_append (r : LogRecord) : M unit :=
  modify_world (λ wd,
    {| disk := disk wd; fault := fault wd; logs := logs wd ++ [r] |}).

(** [log.Println], [log.Printf] of the standard logger *)
Definition log_Println (line : string) : M unit := log_append (StdLog line).

(** Modelled from the spec: package mylog is not among the sources;
    [logAccess(remoteAddr, method, path, protocol, statusCode)] appends an
    access record to the log sink and returns nothing. *)
Definition mylog_LogRequest (remoteAddr method url proto status : string) : M unit :=
  log_append (AccessLog remoteAddr method url proto status).

(** Modelled from the spec: [logMessage(text)] of package mylog appends a
    message to the log sink and returns nothing. *)
Definition mylog_LogMessage (message : string) : M unit :=
  log_append (MessageLog message).

(** *** net/http *)

Definition StatusOK : nat := 200.
Definition StatusSeeOther : nat := 303.
Definition StatusUnauthorized : nat := 401.
Definition StatusInternalServerError : nat := 500.

(** [w.Header().Set(key, value)] *)
Definition Header_Set (key value : string) : M unit :=
  modify_resp (λ w,
    {| Header := <[key := value]> (Header w); sent := sent w; body := body w |}).

(** [w.WriteHeader(code)]: the first call sends the status line and the
    headers as they are; a later call changes nothing. *)
Definition WriteHeader (code : nat) : M unit :=
  modify_resp (λ w,
    match sent w with
    | Some _ => w
    | None => {| Header := Header w; sent := Some (code, Header w); body := body w |}
    end).

(** [w.Write(data)]: sends the header with status 200 first if no header
    has been sent. *)
Definition Write (data : string) : M unit :=
  WriteHeader StatusOK;;
  modify_resp (λ w,
    {| Header := Header w; sent := sent w; body := body w +:+ data |}).

(** [http.Error(w, error, code)] *)
Definition http_Error (error : string) (code : nat) : M unit :=
  Header_Set "Content-Type" "text/plain; charset=utf-8";;
  Header_Set "X-Content-Type-Options" "nosniff";;
  WriteHeader code;;
  Write (error +:+ newline).

(** [req.BasicAuth()] *)
Definition Request_BasicAuth (lib : Library) (req : Request) : option (string * string) :=
  let auth := Header_Authorization req in
  if bool_decide (auth = "") then None else parseBasicAuth lib auth.

(** [http.Redirect(w, r, url, code)] *)
Definition http_Redirect (lib : Library) (req : Request) (url : string) (code : nat) : M unit :=
  w ← get_resp;
  let hadCT := bool_decide (is_Some (Header w !! "Content-Type")) in
  Header_Set "Location" (Redirect_location lib (URL_Path req) url);;
  (if negb hadCT && (bool_decide (Method req = "GET") || bool_decide (Method req = "HEAD"))
   then Header_Set "Content-Type" "text/html; charset=utf-8" else mret tt);;
  WriteHeader code;;
  (* Shouldn't send the body for POST or HEAD; that leaves GET. *)
  if negb hadCT && bool_decide (Method req = "GET")
  then Write (Redirect_body lib url code +:+ newline) else mret tt.

(** [t := template.New(name); t.Parse(text); t.Execute(w, data)] *)
Fixpoint write_all (chunks : list string) : M unit :=
  match chunks with
  | [] => mret tt
  | c :: rest => Write c;; write_all rest
  end.

Definition template_run (lib : Library) (name text : string) (data : option directory) : M unit :=
  write_all (template_Execute lib name text data).

(** *** os and io/ioutil *)

(** An open [*os.File]. *)
Record File := { file_name : string; file_node : node }.

(** [os.Open(name)] *)
Definition os_Open (wd : World) (name : string) : File + errno :=
  match fault wd SysOpen name with
  | Some e => inr e
  | None =>
      match disk wd !! name with
      | None => inr ENOENT
      | Some n => inl {| file_name := name; file_node := n |}
      end
  end.

(** [os.IsNotExist(err)] and [os.IsPermission(err)] on the error of a
    system call. *)
Definition os_IsNotExist (e : errno) : bool := bool_decide (e = ENOENT).
Definition os_IsPermission (e : errno) : bool :=
  bool_decide (e = EACCES) || bool_decide (e = EPERM).

(** The text of a [*PathError]. *)
Definition PathError_text (op name : string) (e : errno) : string :=
  op +:+ " " +:+ name +:+ ": " +:+ errno_text e.

(** [file.Stat()], of which the handler reads [IsDir()] only; [None] when
    [Stat] fails and leaves the [FileInfo] nil. *)
Definition File_Stat_IsDir (wd : World) (file : File) : option bool :=
  match fault wd SysStat (file_name file) with
  | Some _ => None
  | None =>
      Some match file_node file with
           | Directory _ => true
           | RegularFile _ => false
           end
  end.

(** [file.Readdir(-1)] *)
Definition File_Readdir (wd : World) (file : File) : list FileInfo + errno :=
  match fault wd SysReaddir (file_name file) with
  | Some e => inr e
  | None =>
      match file_node file with
      | Directory entries => inl entries
      | RegularFile _ => inr ENOTDIR
      end
  end.

Definition set_disk (d : gmap string node) (wd : World) : World :=
  {| disk := d; fault := fault wd; logs := logs wd |}.

(** Opening [name] for writing with [O_CREATE|O_TRUNC], as [os.Create] and
    [ioutil.WriteFile] do, and leaving [data] in it. *)
Definition write_truncating (call : syscall) (name data : string) : M (option errno) :=
  wd ← get_world;
  match fault wd call name with
  | Some e => mret (Some e)
  | None =>
      match disk wd !! name with
      | Some (Directory _) => mret (Some EISDIR)
      | _ =>
          modify_world (set_disk (<[name := RegularFile data]> (disk wd)));;
          mret None
      end
  end.

(** [os.Create(name)]; the server drops the file it returns. *)
Definition os_Create (name : string) : M (option errno) :=
  write_truncating SysCreate name "".

(** [ioutil.WriteFile(filename, data, perm)] *)
Definition ioutil_WriteFile (filename data : string) : M (option errno) :=
  write_truncating SysWrite filename data.

(** [ioutil.ReadAll(file)] on the file of a form *)
Definition ioutil_ReadAll (part : FilePart) : string * option string :=
  (part_data part, part_err part).

(** *** strings.ToLower *)

(** ['A' <= c && c <= 'Z'] for some byte of [s]. *)
Fixpoint has_upper (s : string) : bool :=
  match s with
  | EmptyString => false
  | String c s' => byte_between "A" "Z" c || has_upper s'
  end.

Definition strings_ToLower (lib : Library) (s : string) : string :=
  if has_non_ascii s then unicode_ToLower lib s
  else if has_upper s then map_bytes lower_byte s
  else s.

(** ** The file server *)

(** The error pages. *)
Definition handle404 (lib : Library) (req : Request) : M unit :=
  mylog_LogRequest (RemoteAddr req) (Method req) (URL_Path req) (Proto req) "404";;
  mylog_LogMessage "404:   File not found";;
  template_run lib "404" (myhtml_GetTemplate lib "404") None.

Definition handle500 (lib : Library) (req : Request) : M unit :=
  mylog_LogRequest (RemoteAddr req) (Method req) (URL_Path req) (Proto req) "500";;
  mylog_LogMessage "500:   No permission to access the file";;
  template_run lib "500" (myhtml_GetTemplate lib "500") None.

(** [sendFile]: [io.Copy(w, file)] *)
Definition sendFile (file : File) : M unit :=
  match file_node file with
  | RegularFile data => Write data
  | Directory _ => mret tt
  end.

(** The body of the loop of [processDir] over the [FileInfo] of the
    directory: name and uri of one child. *)
Definition make_item (relpath : string) (fi : FileInfo) : item :=
  let itemname := fi_Name fi in
  let itemuri := url_PathEscape (path_Join [relpath; itemname]) in
  (* Add / to name if dir *)
  let itemname := if fi_IsDir fi then itemname +:+ "/" else itemname in
  {| Name := itemname; URI := itemuri |}.

(** [for _, fi := range fis { ...; items = append(items, item) }] *)
Definition collect_items (relpath : string) (fis : list FileInfo) : list item :=
  fold_left (λ items fi, items ++ [make_item relpath fi]) fis [].

(** The comparison [processDir] hands to [sort.Slice]. *)
Definition less_lower (lib : Library) (a b : item) : bool :=
  string_lt (strings_ToLower lib (Name a)) (strings_ToLower lib (Name b)).

(** The items [processDir] gives the template: collected, then sorted. *)
Definition processDir_items (lib : Library) (relpath : string) (fis : list FileInfo) : list item :=
  sort_Slice lib (less_lower lib) (collect_items relpath fis).

Definition processDir (lib : Library) (req : Request) (file : File) (relpath : string) : M unit :=
  wd ← get_world;
  (* Read directory FileInfo *)
  match File_Readdir wd file with
  | inr _ => handle404 lib req
  | inl fis =>
      let items := processDir_items lib relpath fis in
      (* Template parsing and writing to browser *)
      let d := {| Path := relpath; Content := items |} in
      template_run lib "index" (myhtml_GetTemplate lib "display") (Some d)
  end.

(** The absolute path [handler] opens, [None] for the request it ignores. *)
Definition handler_open (fs : FileServer) (upath : string) : option string :=
  (* Ignore default browser call to /favicon.ico *)
  if bool_decide (upath = "/favicon.ico") then None
  (* Define absolute path *)
  else Some (Webroot fs +:+ path_Clean upath).

(** handler is the function which actually handles dir or file retrieval;
    [file.Close()], deferred, changes nothing of the state kept here. *)
Definition handler (lib : Library) (fs : FileServer) (req : Request) : M unit :=
  let upath := URL_Path req in
  match handler_open fs upath with
  | None => mret tt
  | Some open =>
      wd ← get_world;
      match os_Open wd open with
      | inr err =>
          if os_IsNotExist err then handle404 lib req
          else if os_IsPermission err then handle500 lib req
          else log_Println (PathError_text "open" open err)
      | inl file =>
          (* Log request *)
          mylog_LogRequest (RemoteAddr req) (Method req) (URL_Path req) (Proto req) "200";;
          (* Switch and check if dir *)
          wd ← get_world;
          match File_Stat_IsDir wd file with
          | None => panic nil_dereference
          | Some true => processDir lib req file upath
          | Some false => sendFile file
          end
      end
  end.

(** [targetpath[:len(targetpath)-1]] joined again: the request path without
    its last segment. *)
Definition upload_target (upath : string) : string :=
  let targetpath := strings_Split upath c_slash in
  let targetpath := removelast targetpath in
  strings_Join targetpath "/".

(** [fmt.Sprintf("%s%s/%s", fs.Webroot, target, handler.Filename)] *)
Definition upload_savepath (fs : FileServer) (upath filename : string) : string :=
  Webroot fs +:+ upload_target upath +:+ "/" +:+ filename.

(** [if err != nil { log.Println(msg); fs.handle500(w, req) }] *)
Definition report500 (lib : Library) (req : Request) {E} (err : option E) (msg : string) : M unit :=
  match err with
  | Some _ => log_Println msg;; handle500 lib req
  | None => mret tt
  end.

(** upload handles the POST request to upload files.
    [req.ParseMultipartForm(10 << 20)] shows in what [FormFile] returns;
    without a file, [file] is nil and [defer file.Close()] panics. *)
Definition upload (lib : Library) (fs : FileServer) (req : Request) : M unit :=
  match FormFile req "file" with
  | FormFileErr err =>
      log_Println ("Error retrieving the file: " +:+ err);;
      panic nil_dereference
  | FormFileOk file =>
      let upath := URL_Path req in
      (* construct target path *)
      let target := upload_target upath in
      (* Construct absolute savepath *)
      let savepath := upload_savepath fs upath (Filename file) in
      (* Create file to write to *)
      err ← os_Create savepath;
      report500 lib req err "ERROR:   Not able to create file on disk";;
      (* Read file from post body *)
      let '(fileBytes, err) := ioutil_ReadAll file in
      report500 lib req err "ERROR:   Not able to read file from request";;
      (* Write file to disk *)
      err ← ioutil_WriteFile savepath fileBytes;
      report500 lib req err "ERROR:   Not able to write file to disk";;
      (* Log request *)
      mylog_LogRequest (RemoteAddr req) (Method req) (URL_Path req) (Proto req) "200";;
      (* Redirect back from where we came from *)
      http_Redirect lib req target StatusSeeOther
  end.

(** [switch req.Method { case "GET": ...; case "POST": ... }] *)
Definition ServeHTTP_switch (lib : Library) (fs : FileServer) (req : Request) : M unit :=
  if bool_decide (Method req = "GET") then handler lib fs req
  else if bool_decide (Method req = "POST") then upload lib fs req
  else mret tt.

(** ServeHTTP will serve the response by leveraging our handler; the
    deferred function recovers a panic into [http.Error]. *)
Definition ServeHTTP (lib : Library) (fs : FileServer) (req : Request) : M unit :=
  λ st,
    match ServeHTTP_switch lib fs req st with
    | (st', Panicking err) => http_Error err StatusInternalServerError st'
    | (st', Normal _) => (st', Normal tt)
    end.

(** basicAuth is a wrapper to handle the basic auth *)
Definition basicAuth (lib : Library) (fs : FileServer) (handler : Request → M unit)
    (req : Request) : M unit :=
  Header_Set "WWW-Authenticate" ("Basic realm=" +:+ quote +:+ "Restricted" +:+ quote);;
  match Request_BasicAuth lib req with
  | None => http_Error "Not authorized" StatusUnauthorized
  | Some (username, password) =>
      if bool_decide (username ≠ "gopher") || bool_decide (password ≠ BasicAuth fs)
      then http_Error "Not authorized" StatusUnauthorized
      else ServeHTTP lib fs req
  end.

(** The handler [Start] registers for every path: [authRouter] when a
    secret is configured, [router] otherwise. *)
Definition Start_router (lib : Library) (fs : FileServer) : Request → M unit :=
  if bool_decide (BasicAuth fs ≠ "")
  then basicAuth lib fs (ServeHTTP lib fs)
  else ServeHTTP lib fs.

(** A response writer nothing has been written to. *)
Definition new_response : ResponseWriter :=
  {| Header := ∅; sent := None; body := "" |}.

(** What net/http does when the handler has returned: a response whose
    header was never sent goes out with status 200. *)
Definition finish_request (w : ResponseWriter) : ResponseWriter :=
  match sent w with
  | Some _ => w
  | None => {| Header := Header w; sent := Some (StatusOK, Header w); body := body w |}
  end.

(** One request served by the registered handler: the world after it and
    the response on the wire. *)
Definition serve (lib : Library) (fs : FileServer) (req : Request) (wd : World)
    : World * ResponseWriter :=
  let '(st, _) := Start_router lib fs req {| world := wd; resp := new_response |} in
  (world st, finish_request (resp st)).

(** *** Start *)

(** Package myca is not among the sources.  [Setup()] makes a certificate
    and returns the TLS configuration of the server and two fingerprints;
    [ParseAndSum(cert)] reads the certificate file and returns its
    fingerprints; either may fail.  The fingerprints and the errors are held
    as the text [%+v] prints for them. *)
Record MyCA (TLSConfig : Type) := {
  myca_Setup : TLSConfig * string * string + string;
  myca_ParseAndSum : string → string * string + string }.
Arguments myca_Setup {TLSConfig} _.
Arguments myca_ParseAndSum {TLSConfig} _ _.

(** The call of [http.Server] in which [Start] blocks: [ListenAndServe()],
    or [ListenAndServeTLS(certFile, keyFile)] with [server.TLSConfig] set or
    not. *)
Inductive listener (TLSConfig : Type) :=
| ListenAndServe (addr : string)
| ListenAndServeTLS (addr : string) (conf : option TLSConfig) (certFile keyFile : string).
Arguments ListenAndServe {TLSConfig} _.
Arguments ListenAndServeTLS {TLSConfig} _ _ _ _.

(** How [Start] ends: [log.Fatal] leaves the process with status 1; the
    listener returns with an error only, which [log.Panic] takes. *)
Inductive start_end (TLSConfig : Type) :=
| Exit (status : nat)
| Serve (l : listener TLSConfig).
Arguments Exit {TLSConfig} _.
Arguments Serve {TLSConfig} _.

Definition warning_no_SSL : string :=
  "WARNING!: You are using basic auth without SSL. Your credentials will be transfered in cleartext. Consider using -s, too.".

(** Start will start the file server: the lines it logs and how it ends.
    The handler it registers for ["/"] before is [Start_router]. *)
Definition Start {TLSConfig} (ca : MyCA TLSConfig) (fs : FileServer)
    : list LogRecord * start_end TLSConfig :=
  (* init router with or without auth *)
  let log0 :=
    if bool_decide (BasicAuth fs ≠ "")
    then (if negb (SSL fs) then [StdLog warning_no_SSL] else [])
         ++ [StdLog ("Using 'gopher:" +:+ BasicAuth fs +:+ "' as basic auth")]
    else [] in
  (* construct server *)
  let add := ":" +:+ pretty (Port fs) in
  (* Check if ssl *)
  if SSL fs then
    (* Check if selfsigned *)
    if SelfSigned fs then
      match myca_Setup ca with
      | inr err =>
          (log0 ++ [StdLog ("Unable to start SSL enabled server: " +:+ err)], Exit 1)
      | inl (serverTLSConf, fingerprint256, fingerprint1) =>
          (log0 ++
           [StdLog ("Serving HTTP on 0.0.0.0 port " +:+ pretty (Port fs) +:+ " from "
                    +:+ Webroot fs +:+ " with ssl enabled and self-signed certificate");
            StdLog "WARNING! Be sure to check the fingerprint of certificate";
            StdLog ("SHA-256 Fingerprint: " +:+ fingerprint256);
            StdLog ("SHA-1   Fingerprint: " +:+ fingerprint1)],
           Serve (ListenAndServeTLS add (Some serverTLSConf) "" ""))
      end
    else
      if bool_decide (MyCert fs = "") || bool_decide (MyKey fs = "") then
        (log0 ++ [StdLog "You need to provide server.key and server.crt if -s and not -ss"],
         Exit 1)
      else
        match myca_ParseAndSum ca (MyCert fs) with
        | inr err =>
            (log0 ++ [StdLog ("Unable to start SSL enabled server: " +:+ err)], Exit 1)
        | inl (fingerprint256, fingerprint1) =>
            (log0 ++
             [StdLog ("Serving HTTP on 0.0.0.0 port " +:+ pretty (Port fs) +:+ " from "
                      +:+ Webroot fs +:+ " with ssl enabled server key: " +:+ MyKey fs
                      +:+ ", server cert: " +:+ MyCert fs);
              StdLog "INFO! You provided a certificate and might want to check the fingerprint nonetheless";
              StdLog ("SHA-256 Fingerprint: " +:+ fingerprint256);
              StdLog ("SHA-1   Fingerprint: " +:+ fingerprint1)],
             Serve (ListenAndServeTLS add None (MyCert fs) (MyKey fs)))
        end
  else
    (log0 ++ [StdLog ("Serving HTTP on 0.0.0.0 port " +:+ pretty (Port fs) +:+ " from "
                      +:+ Webroot fs)],
     Serve (ListenAndServe add)).

(** ** Notions the statements use *)

(** A proper name of a path element: not empty, not ".", not "..", no
    slash in it. *)
Definition real_element (n : string) : Prop :=
  n ≠ "" ∧ n ≠ "." ∧ n ≠ ".." ∧ c_slash ∉ list_ascii_of_string n.

(** ["/n1/n2/.../nk"], the empty string for no names. *)
Fixpoint descend (names : list string) : string :=
  match names with
  | [] => ""
  | n :: rest => "/" +:+ n +:+ descend rest
  end.

(** The rooted path that goes down through [names]: ["/"] for none. *)
Definition rooted_path (names : list string) : string :=
  match names with
  | [] => "/"
  | _ => descend names
  end.

(** Walking the elements of a path relative to a directory: the depth
    below the directory reached, [None] once [".."] climbs above it. *)
Fixpoint walk (depth : nat) (elems : list string) : option nat :=
  match elems with
  | [] => Some depth
  | e :: rest =>
      if bool_decide (e = "") || bool_decide (e = ".") then walk depth rest
      else if bool_decide (e = "..") then
        match depth with
        | O => None
        | S d => walk d rest
        end
      else walk (S depth) rest
  end.

(** [p] is [root] followed by a rooted relative path that never climbs
    above [root]. *)
Definition within_root (root p : string) : Prop :=
  ∃ rel, p = root +:+ rel ∧ byte_at_is c_slash rel = true
         ∧ is_Some (walk 0 (strings_Split rel c_slash)).

(** The buffer of [path.Clean] that holds ["/n1/.../nk"], for the names
    given last first. *)
Fixpoint stack_rest (rnames : list string) : lazybuf :=
  match rnames with
  | [] => []
  | n :: r => rev (list_ascii_of_string n) ++ c_slash :: stack_rest r
  end.

Definition stack (rnames : list string) : lazybuf :=
  match rnames with
  | [] => [c_slash]
  | _ => stack_rest rnames
  end.


(** ** Sorting *)

(** What [sort.Slice] asks of [less]: a strict weak order. *)
Definition strict_weak_order {A} (less : A → A → bool) : Prop :=
  (∀ x, less x x = false)
  ∧ (∀ x y z, less x y = true → less y z = true → less x z = true)
  ∧ (∀ x y z, less x y = false → less y z = false → less x z = false).

(** The contract of [sort.Slice]: the slice afterwards holds the same
    elements, no element before one that is less.  The documentation adds
    that the sort is not guaranteed to be stable. *)
Definition sorts (sortf : (item → item → bool) → list item → list item) : Prop :=
  ∀ less l, strict_weak_order less →
    sortf less l ≡ₚ l
    ∧ StronglySorted (λ a b, less b a = false) (sortf less l).

(** Stability of a sort by [key]: the entries of one key keep the order
    they came in. *)
Definition keeps_order_of_ties (key : item → string) (input output : list item) : Prop :=
  ∀ k, filter (λ it, key it = k) output = filter (λ it, key it = k) input.

(** The routine [sort.Slice] of the Go releases up to 1.18 runs on a slice
    of at most 12 elements (the end of [quickSort_func]): one pass with gap
    6, then insertion sort.

    [for i := a + 6; i < b; i++ { if less(i, i-6) { swap(i, i-6) } }]:
    [before] holds [data[:i-6]] last element first, [window] holds
    [data[i-6:i]], [rest] holds [data[i:]]. *)
Fixpoint gap6_go {A} (less : A → A → bool) (before window rest : list A) : list A :=
  match rest, window with
  | x :: rest', y :: window' =>
      if less x y
      then gap6_go less (x :: before) (window' ++ [y]) rest'
      else gap6_go less (y :: before) (window' ++ [x]) rest'
  | _, _ => rev before ++ window ++ rest
  end.

Definition gap6_pass {A} (less : A → A → bool) (data : list A) : list A :=
  gap6_go less [] (take 6 data) (drop 6 data).

(** [for j := i; j > a && less(j, j-1); j-- { swap(j, j-1) }] for the
    element [x = data[i]]: [sorted] holds [data[a:i]] last element first. *)
Fixpoint insert_back {A} (less : A → A → bool) (x : A) (sorted : list A) : list A :=
  match sorted with
  | [] => [x]
  | y :: sorted' =>
      if less x y then y :: insert_back less x sorted' else x :: sorted
  end.

(** [insertionSort_func] *)
Definition insertionSort {A} (less : A → A → bool) (data : list A) : list A :=
  rev (fold_left (λ sorted x, insert_back less x sorted) data []).

Definition sort_Slice_short {A} (less : A → A → bool) (data : list A) : list A :=
  insertionSort less (gap6_pass less data).

(** ** A library, a server and requests to try the statements on *)

(** The part after ["Basic "] of an Authorization header, split at the
    first colon: [parseBasicAuth] without the base64 decoding. *)
Fixpoint split_colon (user : list ascii) (s : string) : option (string * string) :=
  match s with
  | EmptyString => None
  | String c s' =>
      if Ascii.eqb c ":" then Some (string_of_list_ascii (rev user), s')
      else split_colon (c :: user) s'
  end.

Definition parse_clear (auth : string) : option (string * string) :=
  if String.prefix "Basic " auth
  then split_colon [] (String.substring 6 (String.length auth - 6) auth)
  else None.

(** A template engine that writes the text of the template, then one line
    for every item. *)
Definition execute_plain (name text : string) (data : option directory) : list string :=
  text :: match data with
          | Some d => map (λ it, URI it +:+ " " +:+ Name it) (Content d)
          | None => []
          end.

Definition demo_lib : Library :=
  {| unicode_ToLower := λ s, s;
     sort_Slice := sort_Slice_short;
     parseBasicAuth := parse_clear;
     template_Execute := execute_plain;
     myhtml_GetTemplate := λ name, "<" +:+ name +:+ ">";
     Redirect_location := λ oldpath url, if bool_decide (url = "") then "/" else url;
     Redirect_body := λ url code, url |}.

Definition plain_file (name : string) : FileInfo :=
  {| fi_Name := name; fi_IsDir := false |}.

(** Seven children, two of which differ in case only. *)
Definition demo_listing : list FileInfo :=
  map plain_file ["Readme"; "readme"; "t"; "u"; "v"; "w"; "about"].

Definition demo_fs : FileServer :=
  {| Port := 8000%Z; Webroot := "/srv/www"; SSL := false; SelfSigned := false;
     MyKey := ""; MyCert := ""; BasicAuth := "" |}.

(** A request without credentials and without a form. *)
Definition demo_request (method upath : string) : Request :=
  {| Method := method; URL_Path := upath; Proto := "HTTP/1.1";
     RemoteAddr := "10.0.0.7:40000"; Header_Authorization := "";
     FormFile := λ _, FormFileErr "http: no such file" |}.

(** The same request with an Authorization header. *)
Definition with_authorization (auth : string) (req : Request) : Request :=
  {| Method := Method req; URL_Path := URL_Path req; Proto := Proto req;
     RemoteAddr := RemoteAddr req; Header_Authorization := auth;
     FormFile := FormFile req |}.

(** The demo server with a secret. *)
Definition demo_fs_auth : FileServer :=
  {| Port := 8000%Z; Webroot := "/srv/www"; SSL := false; SelfSigned := false;
     MyKey := ""; MyCert := ""; BasicAuth := "s3cret" |}.

(** A disk with a public directory, a file in it and a file the server may
    not open. *)
Definition demo_disk : gmap string node :=
  {[ "/srv/www/" := Directory [{| fi_Name := "docs"; fi_IsDir := true |};
                                {| fi_Name := "secret.txt"; fi_IsDir := false |}];
     "/srv/www/docs" := Directory [plain_file "report.txt"];
     "/srv/www/docs/report.txt" := RegularFile "old";
     "/srv/www/secret.txt" := RegularFile "x" ]}.

Definition demo_fault (call : syscall) (name : string) : option errno :=
  match call with
  | SysOpen => if bool_decide (name = "/srv/www/secret.txt") then Some EACCES else None
  | _ => None
  end.

Definition demo_world : World :=
  {| disk := demo_disk; fault := demo_fault; logs := [] |}.

Definition demo_state : State :=
  {| world := demo_world; resp := new_response |}.

(** An upload of report.txt to /docs/. *)
Definition demo_part : FilePart :=
  {| Filename := "report.txt"; part_data := "new"; part_err := None |}.

Definition demo_upload : Request :=
  {| Method := "POST"; URL_Path := "/docs/"; Proto := "HTTP/1.1";
     RemoteAddr := "10.0.0.7:40000"; Header_Authorization := "";
     FormFile := λ key, if bool_decide (key = "file") then FormFileOk demo_part
                        else FormFileErr "http: no such file" |}.

(** The demo world when creating a file is refused but writing is not. *)
Definition demo_world_no_create : World :=
  {| disk := demo_disk;
     fault := λ call name, match call with SysCreate => Some EACCES | _ => None end;
     logs := [] |}.

(** The demo world when [Stat] fails on an open file. *)
Definition demo_world_no_stat : World :=
  {| disk := demo_disk;
     fault := λ call name, match call with SysStat => Some EIO | _ => None end;
     logs := [] |}.

(** ** The Basic-auth gate *)

(** The credentials of the request do not pass: no Authorization header,
    none that parses, a user other than gopher, or a password other than
    the secret. *)
Definition auth_rejected (lib : Library) (fs : FileServer) (req : Request) : Prop :=
  Header_Authorization req = ""
  ∨ Request_BasicAuth lib req = None
  ∨ ∃ username password,
      Request_BasicAuth lib req = Some (username, password)
      ∧ (username ≠ "gopher" ∨ password ≠ BasicAuth fs).

Definition challenge_value : string :=
  "Basic realm=" +:+ quote +:+ "Restricted" +:+ quote.

(** The response writer after [w.Header().Set("WWW-Authenticate", ...)]. *)
Definition challenged (st : State) : State :=
  {| world := world st;
     resp := {| Header := <["WWW-Authenticate" := challenge_value]> (Header (resp st));
                sent := sent (resp st); body := body (resp st) |} |}.

(** The 401 response of the gate. *)
Definition unauthorized_headers : gmap string string :=
  <["X-Content-Type-Options" := "nosniff"]>
    (<["Content-Type" := "text/plain; charset=utf-8"]>
       (<["WWW-Authenticate" := challenge_value]> ∅)).

Definition unauthorized_response : ResponseWriter :=
  {| Header := unauthorized_headers;
     sent := Some (StatusUnauthorized, unauthorized_headers);
     body := "Not authorized" +:+ newline |}.

(** The response net/http sends when the handler has written nothing. *)
Definition empty_200 : ResponseWriter :=
  {| Header := ∅; sent := Some (StatusOK, ∅); body := "" |}.

(** ** States the statements describe *)

(** The state after the records [rs] went to the log. *)
Definition add_logs (rs : list LogRecord) (st : State) : State :=
  {| world := {| disk := disk (world st); fault := fault (world st);
                 logs := logs (world st) ++ rs |};
     resp := resp st |}.

(** The response writer after one [w.Write(chunk)]. *)
Definition write_chunk (w : ResponseWriter) (chunk : string) : ResponseWriter :=
  {| Header := Header w;
     sent := Some (default (StatusOK, Header w) (sent w));
     body := body w +:+ chunk |}.

(** The state after the chunks went to the response. *)
Definition add_chunks (chunks : list string) (st : State) : State :=
  {| world := world st; resp := fold_left write_chunk chunks (resp st) |}.

(** What the template of an error page writes. *)
Definition error_page (lib : Library) (name : string) : list string :=
  template_Execute lib name (myhtml_GetTemplate lib name) None.

(** The access record of a request with a status. *)
Definition access_record (req : Request) (status : string) : LogRecord :=
  AccessLog (RemoteAddr req) (Method req) (URL_Path req) (Proto req) status.

(** The state after [handle404] and after [handle500]. *)
Definition after_404 (lib : Library) (req : Request) (st : State) : State :=
  add_chunks (error_page lib "404")
    (add_logs [access_record req "404"; MessageLog "404:   File not found"] st).

Definition after_500 (lib : Library) (req : Request) (st : State) : State :=
  add_chunks (error_page lib "500")
    (add_logs [access_record req "500";
               MessageLog "500:   No permission to access the file"] st).

(** Opening [name] for writing with truncation, on the world: the world
    afterwards and the error. *)
Definition truncate (wd : World) (call : syscall) (name data : string) : World * option errno :=
  match fault wd call name with
  | Some e => (wd, Some e)
  | None =>
      match disk wd !! name with
      | Some (Directory _) => (wd, Some EISDIR)
      | _ => (set_disk (<[name := RegularFile data]> (disk wd)) wd, None)
      end
  end.

Definition set_world (wd : World) (st : State) : State :=
  {| world := wd; resp := resp st |}.

(** The three records and the page a failed step of the upload leaves. *)
Definition reported (lib : Library) (req : Request) {E} (err : option E)
    (msg : string) (st : State) : State :=
  match err with
  | Some _ => after_500 lib req (add_logs [StdLog msg] st)
  | None => st
  end.

Definition failure_logs (req : Request) {E} (err : option E) (msg : string) : list LogRecord :=
  match err with
  | Some _ => [StdLog msg; access_record req "500";
               MessageLog "500:   No permission to access the file"]
  | None => []
  end.

Definition failure_pages (lib : Library) {E} (err : option E) : list string :=
  match err with
  | Some _ => error_page lib "500"
  | None => []
  end.

Definition msg_create : string := "ERROR:   Not able to create file on disk".
Definition msg_read : string := "ERROR:   Not able to read file from request".
Definition msg_write : string := "ERROR:   Not able to write file to disk".

(** The state in which [upload] calls [http.Redirect], for a request with
    the file [file]: every step has run, each failure has been reported. *)
Definition upload_before_redirect (lib : Library) (fs : FileServer) (req : Request)
    (file : FilePart) (st : State) : State :=
  let savepath := upload_savepath fs (URL_Path req) (Filename file) in
  let '(wd1, create_err) := truncate (world st) SysCreate savepath "" in
  let st1 := reported lib req create_err msg_create (set_world wd1 st) in
  let st2 := reported lib req (part_err file) msg_read st1 in
  let '(wd3, write_err) := truncate (world st2) SysWrite savepath (part_data file) in
  let st3 := reported lib req write_err msg_write (set_world wd3 st2) in
  add_logs [access_record req "200"] st3.

(** The response of [http.Redirect] to [location] on a fresh response
    writer, for a method that gets no body. *)
Definition redirect_response (location : string) (code : nat) : ResponseWriter :=
  {| Header := {[ "Location" := location ]};
     sent := Some (code, {[ "Location" := location ]});
     body := "" |}.

(** The response writer after [http.Error(w, msg, code)] when the header
    of [w] has not been sent. *)
Definition error_response (w : ResponseWriter) (msg : string) (code : nat) : ResponseWriter :=
  let h := <["X-Content-Type-Options" := "nosniff"]>
             (<["Content-Type" := "text/plain; charset=utf-8"]> (Header w)) in
  {| Header := h; sent := Some (code, h); body := body w +:+ (msg +:+ newline) |}.

(** The line [upload] logs when the form has no file. *)
Definition no_file_line (err : string) : LogRecord :=
  StdLog ("Error retrieving the file: " +:+ err).

(** The world after is the world before with records added to the log:
    the same disk, the same faults. *)
Definition log_extension (wd wd' : World) : Prop :=
  disk wd' = disk wd ∧ fault wd' = fault wd ∧ ∃ rs, logs wd' = logs wd ++ rs.

(** The demo world when [ioutil.WriteFile] is refused but [os.Create] is
    not. *)
Definition demo_world_no_write : World :=
  {| disk := demo_disk;
     fault := λ call name, match call with SysWrite => Some EACCES | _ => None end;
     logs := [] |}.



(** The response writer holds the challenge of the gate, and so does the
    header that went out, if one did. *)
Definition challenge_carried (w : ResponseWriter) : Prop :=
  Header w !! "WWW-Authenticate" = Some challenge_value
  ∧ ∀ code h, sent w = Some (code, h) → h !! "WWW-Authenticate" = Some challenge_value.

(** A package myca whose certificates are at hand: [Setup] succeeds, and
    [ParseAndSum] reads server.crt only. *)
Definition demo_ca : MyCA unit :=
  {| myca_Setup := inl (tt, "AA:BB", "CC:DD");
     myca_ParseAndSum := λ cert,
       if bool_decide (cert = "server.crt") then inl ("11:22", "33:44")
       else inr ("open " +:+ cert +:+ ": no such file or directory") |}.

(** The server started with [-ss] but without [-s], and with [-s] and a
    certificate but no key. *)
Definition demo_fs_selfsigned_only : FileServer :=
  {| Port := 8000%Z; Webroot := "/srv/www"; SSL := false; SelfSigned := true;
     MyKey := ""; MyCert := ""; BasicAuth := "" |}.

Definition demo_fs_no_key : FileServer :=
  {| Port := 8000%Z; Webroot := "/srv/www"; SSL := true; SelfSigned := false;
     MyKey := ""; MyCert := "server.crt"; BasicAuth := "s3cret" |}.

(** * Proofs *)

(** ** Strings *)
Lemma string_app_cons c s t : String c s +:+ t = String c (s +:+ t).
Proof. reflexivity. Qed.
Lemma string_app_nil_l t : "" +:+ t = t.
Proof. reflexivity. Qed.
Lemma string_app_nil_r s : s +:+ "" = s.
Proof. induction s as [|c s IH]; [done|]. by rewrite string_app_cons, IH. Qed.
Lemma string_app_assoc s t u : (s +:+ t) +:+ u = s +:+ (t +:+ u).
Proof. induction s as [|c s IH]; [done|]. by rewrite !string_app_cons, IH. Qed.
Lemma string_of_list_ascii_app a b :
  string_of_list_ascii (a ++ b) = string_of_list_ascii a +:+ string_of_list_ascii b.
Proof. induction a as [|c a IH]; [done|]. simpl. by rewrite IH. Qed.
Lemma list_ascii_of_string_app s t :
  list_ascii_of_string (s +:+ t) = list_ascii_of_string s ++ list_ascii_of_string t.
Proof. induction s as [|c s IH]; [done|]. rewrite string_app_cons. simpl. by rewrite IH. Qed.

(** Unfolds [+:+] on the literal strings in the goal and the hypotheses. *)
Ltac string_app_eval := cbv beta iota fix delta [String.append] in *.

Lemma ascii_eqb_true c d : Ascii.eqb c d = true ↔ c = d.
Proof. apply Ascii.eqb_eq. Qed.
Lemma ascii_eqb_false c d : Ascii.eqb c d = false ↔ c ≠ d.
Proof. apply Ascii.eqb_neq. Qed.

(** copy_element reads one element *)
Lemma copy_element_spec s out :
  ∃ e s', s = String.append (string_of_list_ascii e) s'
          ∧ (c_slash ∉ e)
          ∧ at_end_or_slash s' = true
          ∧ copy_element s out = (s', rev e ++ out).
Proof.
  revert out. induction s as [|c s IH]; intros out.
  - exists [], "". split_and!; try done. apply not_elem_of_nil.
  - simpl. destruct (Ascii.eqb c c_slash) eqn:Hc.
    + exists [], (String c s). split_and!; try done.
      apply not_elem_of_nil.
    + destruct (IH (c :: out)) as (e & s' & -> & Hno & Hend & Heq).
      exists (c :: e), s'. split_and!; try done.
      * apply not_elem_of_cons. split; [|done].
        apply ascii_eqb_false in Hc. congruence.
      * rewrite Heq. simpl. by rewrite <- app_assoc.
Qed.

Lemma stack_rest_nil r : stack_rest r = [] → r = [].
Proof. destruct r as [|n r]; [done|]. simpl. intros H. by apply app_eq_nil in H as [_ ?]. Qed.

Lemma stack_rest_stack r : r ≠ [] → stack r = stack_rest r.
Proof. by destruct r. Qed.

Lemma backtrack_element l rest :
  l ≠ [] → c_slash ∉ l →
  backtrack 1 (l ++ c_slash :: rest) = match rest with [] => [c_slash] | _ => rest end.
Proof.
  induction l as [|c l IH]; [done|]. intros _ Hno.
  apply not_elem_of_cons in Hno as [Hc Hno].
  assert (Ascii.eqb c c_slash = false) as Hcb by (apply ascii_eqb_false; congruence).
  simpl. rewrite Hcb. simpl.
  destruct l as [|d l].
  - simpl. destruct rest as [|x rest]; simpl; [done|].
    by rewrite andb_false_r.
  - rewrite bool_decide_true by (simpl; rewrite length_app; simpl; lia).
    simpl andb. cbv iota. apply IH; done.
Qed.

Lemma real_element_chars n :
  real_element n → list_ascii_of_string n ≠ [] ∧ c_slash ∉ list_ascii_of_string n.
Proof.
  intros (Hne & _ & _ & Hno). split; [|done]. destruct n; [done|]. simpl. done.
Qed.

Lemma backtrack_stack n r :
  real_element n → backtrack 1 (stack (n :: r)) = stack r.
Proof.
  intros [Hne Hno]%real_element_chars. simpl.
  rewrite backtrack_element.
  - destruct r as [|m r]; [done|]. simpl.
    destruct (rev (list_ascii_of_string m) ++ c_slash :: stack_rest r) eqn:E; [|done].
    by apply app_eq_nil in E as [_ ?].
  - intros H. apply (f_equal (@rev _)) in H. rewrite rev_involutive in H. done.
  - by rewrite list_elem_of_In, <- in_rev, <- list_elem_of_In.
Qed.

Lemma stack_length_1 r : Forall real_element r → (length (stack r) =? 1) = bool_decide (r = []).
Proof.
  destruct r as [|n r]; [done|]. intros Hall. apply Forall_cons in Hall as [Hn _].
  apply real_element_chars in Hn as [Hne _].
  simpl. rewrite length_app, length_rev. simpl.
  destruct (list_ascii_of_string n); [done|]. simpl.
  apply Nat.eqb_neq. lia.
Qed.

Lemma stack_length_gt r :
  Forall real_element r → bool_decide (1 < length (stack r)) = negb (bool_decide (r = [])).
Proof.
  destruct r as [|n r]; [done|]. intros Hall. apply Forall_cons in Hall as [Hn _].
  apply real_element_chars in Hn as [Hne _].
  simpl. rewrite length_app, length_rev. simpl.
  destruct (list_ascii_of_string n); [done|]. simpl.
  apply bool_decide_true. lia.
Qed.

(** What [copy_element] copies in the last case of the loop is a proper
    name. *)
Lemma copied_element_real s e s' :
  s = string_of_list_ascii e +:+ s' →
  s ≠ "" →
  byte_at_is c_slash s = false →
  byte_at_is c_dot s && at_end_or_slash (string_tail s) = false →
  byte_at_is c_dot s && byte_at_is c_dot (string_tail s)
    && at_end_or_slash (string_tail (string_tail s)) = false →
  c_slash ∉ e →
  at_end_or_slash s' = true →
  real_element (string_of_list_ascii e).
Proof.
  intros -> Hs H1 H2 H3 Hno Hend. unfold real_element. split_and!.
  - destruct e as [|c e]; [|done]. simpl in *.
    destruct s' as [|d s']; [done|]. simpl in *. congruence.
  - intros He. rewrite He in *. string_app_eval. simpl in *. congruence.
  - intros He. rewrite He in *. string_app_eval. simpl in *. congruence.
  - by rewrite list_ascii_of_string_of_list_ascii.
Qed.

(** The loop of [path.Clean] on a rooted path keeps the buffer of the form
    ["/n1/.../nk"] with proper names. *)
Lemma clean_loop_rooted fuel s r :
  Forall real_element r →
  ∃ r', Forall real_element r' ∧ clean_loop fuel true s (stack r) 1 = stack r'.
Proof.
  revert s r. induction fuel as [|fuel IH]; intros s r Hr; [by exists r|].
  simpl. case_bool_decide as Hs; [by exists r|].
  destruct (byte_at_is c_slash s) eqn:H1; [by apply IH|].
  destruct (byte_at_is c_dot s && at_end_or_slash (string_tail s)) eqn:H2;
    [by apply IH|].
  destruct (byte_at_is c_dot s && byte_at_is c_dot (string_tail s)
            && at_end_or_slash (string_tail (string_tail s))) eqn:H3.
  - rewrite stack_length_gt by done.
    destruct r as [|n r]; simpl negb; cbv iota; [by apply IH|].
    apply Forall_cons in Hr as [Hn Hr].
    rewrite backtrack_stack by done. by apply IH.
  - rewrite stack_length_1 by done. simpl andb. rewrite orb_false_r.
    match goal with |- context [copy_element s ?o] =>
      destruct (copy_element_spec s o) as (e & s' & Heq & Hno & Hend & Hcopy)
    end.
    rewrite Hcopy.
    assert (real_element (string_of_list_ascii e)) as He
      by eauto using copied_element_real.
    match goal with |- context [clean_loop fuel true s' ?o 1] =>
      replace o with (stack (string_of_list_ascii e :: r))
    end.
    { apply IH. by constructor. }
    simpl. rewrite list_ascii_of_string_of_list_ascii.
    destruct r as [|n r]; [done|]. by rewrite bool_decide_false.
Qed.

Lemma descend_app a b : descend (a ++ b) = descend a +:+ descend b.
Proof.
  induction a as [|n a IH]; [done|]. simpl. rewrite IH.
  by rewrite !string_app_assoc.
Qed.

Lemma stack_rest_string r :
  string_of_list_ascii (rev (stack_rest r)) = descend (rev r).
Proof.
  induction r as [|n r IH]; [done|]. simpl.
  rewrite rev_app_distr. simpl. rewrite rev_involutive, <- app_assoc.
  rewrite string_of_list_ascii_app, IH, descend_app. simpl.
  by rewrite string_of_list_ascii_of_string, string_app_nil_r.
Qed.

Lemma stack_string r : lazybuf_string (stack r) = rooted_path (rev r).
Proof.
  unfold lazybuf_string. destruct r as [|n r]; [done|].
  rewrite stack_rest_stack by done. rewrite stack_rest_string.
  unfold rooted_path. destruct (rev (n :: r)) eqn:E; [|done].
  apply (f_equal (@length _)) in E. rewrite length_rev in E. done.
Qed.

(** [path.Clean] of a rooted path is ["/"] or ["/n1/.../nk"] with proper
    names: no empty element, no ["."], no [".."]. *)
Lemma path_Clean_rooted p :
  byte_at_is c_slash p = true →
  ∃ names, Forall real_element names ∧ path_Clean p = rooted_path names.
Proof.
  intros Hp. unfold path_Clean.
  rewrite bool_decide_false by (by destruct p).
  rewrite Hp.
  destruct (clean_loop_rooted (String.length p) (string_tail p) [])
    as (r & Hr & Hloop); [done|].
  change [c_slash] with (stack []). rewrite Hloop.
  exists (rev r). split.
  - by apply Forall_rev.
  - rewrite <- stack_string.
    destruct (stack r) eqn:E; [|done].
    destruct r; [done|]. simpl in E. by apply app_eq_nil in E as [_ ?].
Qed.

(** Splitting at slashes: a name is read up to the next slash. *)
Lemma split_go_name cur n rest :
  c_slash ∉ list_ascii_of_string n →
  split_go c_slash cur (n +:+ rest)
  = split_go c_slash (rev (list_ascii_of_string n) ++ cur) rest.
Proof.
  revert cur. induction n as [|c n IH]; intros cur Hno; [done|].
  simpl in Hno. apply not_elem_of_cons in Hno as [Hc Hno].
  rewrite string_app_cons. simpl.
  assert (Ascii.eqb c c_slash = false) as -> by (apply ascii_eqb_false; congruence).
  rewrite IH by done. by rewrite <- app_assoc.
Qed.

Lemma split_go_descend cur names :
  Forall real_element names →
  split_go c_slash cur (descend names)
  = match names with
    | [] => [string_of_list_ascii (rev cur)]
    | _ => string_of_list_ascii (rev cur) :: names
    end.
Proof.
  revert cur. induction names as [|n names IH]; intros cur Hall; [done|].
  apply Forall_cons in Hall as [Hn Hall].
  simpl descend. rewrite string_app_cons, string_app_nil_l. simpl. f_equal.
  rewrite split_go_name by apply Hn. rewrite IH by done.
  rewrite app_nil_r, rev_involutive, string_of_list_ascii_of_string.
  by destruct names.
Qed.

Lemma walk_real d names :
  Forall real_element names → walk d names = Some (d + length names).
Proof.
  revert d. induction names as [|n names IH]; intros d Hall; simpl.
  - f_equal. lia.
  - apply Forall_cons in Hall as [(H1 & H2 & H3 & _) Hall].
    rewrite !bool_decide_false by done. simpl.
    rewrite IH by done. f_equal. lia.
Qed.

Lemma rooted_path_walk names :
  Forall real_element names →
  byte_at_is c_slash (rooted_path names) = true
  ∧ walk 0 (strings_Split (rooted_path names) c_slash) = Some (length names).
Proof.
  intros Hall. destruct names as [|n names]; [done|]. split; [done|].
  unfold strings_Split, rooted_path. rewrite split_go_descend by done.
  change (walk 0 (string_of_list_ascii (rev []) :: n :: names))
    with (walk 0 (n :: names)).
  by rewrite walk_real.
Qed.

(** ** Path resolution *)

(** C1: for every GET request path (request paths begin with a slash), the
    path [handler] opens is the served root followed by the cleaned request
    path, and it lies within the served root: the cleaned path is ["/"] or
    goes down through proper names only, so no [".."] is left to climb out
    of the root. *)
Theorem handler_open_within_root (fs : FileServer) (upath opened : string) :
  byte_at_is c_slash upath = true →
  handler_open fs upath = Some opened →
  opened = Webroot fs +:+ path_Clean upath
  ∧ within_root (Webroot fs) opened
  ∧ ∃ names, Forall real_element names ∧ path_Clean upath = rooted_path names.
Proof.
  intros Hrooted Hopen. unfold handler_open in Hopen.
  case_bool_decide; [done|]. injection Hopen as <-.
  destruct (path_Clean_rooted upath Hrooted) as (names & Hnames & Hclean).
  split_and!; [done| |by exists names].
  exists (path_Clean upath). rewrite Hclean.
  destruct (rooted_path_walk names Hnames) as [Hr Hw].
  split_and!; [done|done|]. by rewrite Hw.
Qed.

Lemma handler_open_within_root_witness :
  handler_open demo_fs "/docs/../../etc/passwd" = Some "/srv/www/etc/passwd"
  ∧ within_root "/srv/www" "/srv/www/etc/passwd".
Proof.
  split; [reflexivity|].
  apply (handler_open_within_root demo_fs "/docs/../../etc/passwd"); reflexivity.
Defined.

(** Outside the domain of C1: a path that is not rooted is cleaned to a
    relative path, which the concatenation does not confine. *)
Example path_Clean_not_rooted :
  path_Clean "" = "." ∧ path_Clean "../x" = "../x".
Proof. split; reflexivity. Qed.

(** ** Percent-encoding *)

(** The two hexadecimal digits [escape] writes for a byte are digits, and
    [unescape] reads the byte back from them. *)
Lemma hex_digits_roundtrip c :
  let hi := upperhex_at (N.shiftr (N_of_ascii c) 4) in
  let lo := upperhex_at (N.land (N_of_ascii c) 15) in
  ishex hi = true ∧ ishex lo = true
  ∧ ascii_of_N (N.lor (N.shiftl (unhex hi) 4) (unhex lo)) = c.
Proof. destruct c as [[] [] [] [] [] [] [] []]; vm_compute; done. Qed.

(** A byte that is copied as it is is not a percent sign. *)
Lemma unescaped_byte_not_percent c :
  shouldEscape c = false → Ascii.eqb c "%" = false.
Proof.
  intros Hc. destruct (Ascii.eqb c "%") eqn:E; [|done].
  apply ascii_eqb_true in E. subst c. vm_compute in Hc. done.
Qed.

Lemma unescape_check_escape_write s n :
  unescape_check (escape_write s) n = inl (n + escape_count s).
Proof.
  revert n. induction s as [|c s IH]; intros n; simpl.
  - f_equal. lia.
  - destruct (shouldEscape c) eqn:Hc.
    + destruct (hex_digits_roundtrip c) as (H1 & H2 & _).
      cbn zeta in H1, H2. simpl. rewrite H1, H2. simpl.
      rewrite IH. f_equal. lia.
    + simpl. rewrite (unescaped_byte_not_percent c Hc). rewrite IH. done.
Qed.

Lemma unescape_write_escape_write s :
  unescape_write (escape_write s) = s.
Proof.
  induction s as [|c s IH]; simpl; [done|].
  destruct (shouldEscape c) eqn:Hc.
  - destruct (hex_digits_roundtrip c) as (_ & _ & H3). cbn zeta in H3.
    simpl. by rewrite H3, IH.
  - simpl. rewrite (unescaped_byte_not_percent c Hc). by rewrite IH.
Qed.

Lemma unescape_check_plain s n :
  escape_count s = 0 → unescape_check s n = inl n.
Proof.
  revert n. induction s as [|c s IH]; intros n; simpl; [done|].
  destruct (shouldEscape c) eqn:Hc; [done|]. simpl. intros Hs.
  rewrite (unescaped_byte_not_percent c Hc). by apply IH.
Qed.

(** [PathUnescape] undoes [PathEscape], for every byte string. *)
Lemma PathUnescape_PathEscape s :
  url_PathUnescape (url_PathEscape s) = Unescaped s.
Proof.
  unfold url_PathEscape, url_PathUnescape.
  destruct (escape_count s =? 0) eqn:Hn.
  - apply Nat.eqb_eq in Hn. by rewrite unescape_check_plain.
  - rewrite unescape_check_escape_write. simpl. rewrite Hn.
    by rewrite unescape_write_escape_write.
Qed.

(** [collect_items] is the list of the items of the children, in the order
    of the enumeration. *)
Lemma collect_items_map relpath fis :
  collect_items relpath fis = map (make_item relpath) fis.
Proof.
  unfold collect_items.
  enough (∀ acc, fold_left (λ items fi, items ++ [make_item relpath fi]) fis acc
                 = acc ++ map (make_item relpath) fis) as H by apply H.
  induction fis as [|fi fis IH]; intros acc; simpl.
  - by rewrite app_nil_r.
  - rewrite IH. by rewrite <- app_assoc.
Qed.

(** C7: for every child of a directory, whatever bytes its name holds,
    decoding the link URI [processDir] computes gives back, without error,
    the path joined from the request path and the base name of the child. *)
Theorem link_URI_decodes (relpath : string) (fis : list FileInfo) :
  Forall2 (λ fi it, url_PathUnescape (URI it)
                    = Unescaped (path_Join [relpath; fi_Name fi]))
          fis (collect_items relpath fis).
Proof.
  rewrite collect_items_map. induction fis as [|fi fis IH]; constructor; [|done].
  apply PathUnescape_PathEscape.
Qed.

Example link_URI_percent :
  URI (make_item "/docs/" {| fi_Name := "a b%.txt"; fi_IsDir := false |})
  = "%2Fdocs%2Fa%20b%25.txt".
Proof. reflexivity. Qed.

(** ** The order of the listing *)

Lemma string_lt_leb a b : string_lt a b = negb (String.leb b a).
Proof.
  unfold string_lt, String.ltb, String.leb.
  rewrite (String.compare_antisym b a). by destruct (String.compare a b).
Qed.

Lemma string_leb_trans a b c :
  String.leb a b = true → String.leb b c = true → String.leb a c = true.
Proof.
  intros H1 H2. apply Is_true_true.
  apply Is_true_true in H1, H2.
  change (String.le a c). by trans b.
Qed.

Lemma string_leb_refl a : String.leb a a = true.
Proof. apply Is_true_true. change (String.le a a). done. Qed.

(** Comparing by a key with the order of Go strings is a strict weak
    order. *)
Lemma by_key_strict_weak_order {A} (key : A → string) :
  strict_weak_order (λ a b, string_lt (key a) (key b)).
Proof.
  split_and!.
  - intros x. by rewrite string_lt_leb, string_leb_refl.
  - intros x y z. rewrite !string_lt_leb, !negb_true_iff.
    intros Hxy Hyz. destruct (String.leb (key z) (key x)) eqn:Hzx; [|done].
    destruct (String.leb_total (key y) (key z)) as [Hle|Hle]; [|congruence].
    rewrite (string_leb_trans _ _ _ Hle Hzx) in Hxy. done.
  - intros x y z. rewrite !string_lt_leb, !negb_false_iff.
    intros Hyx Hzy. by apply (string_leb_trans _ (key y)).
Qed.

Lemma less_lower_strict_weak_order lib : strict_weak_order (less_lower lib).
Proof. apply (by_key_strict_weak_order (λ it, strings_ToLower lib (Name it))). Qed.

Section insertion.
Context {A : Type} (less : A → A → bool).
Hypothesis Hless : strict_weak_order less.

Lemma less_asym x y : less x y = true → less y x = false.
Proof.
  destruct Hless as (Hirr & Htrans & _). intros Hxy.
  destruct (less y x) eqn:Hyx; [|done].
  by rewrite <- (Hirr x), (Htrans x y x).
Qed.

Lemma insert_back_Permutation x sorted :
  insert_back less x sorted ≡ₚ x :: sorted.
Proof.
  induction sorted as [|y sorted IH]; simpl; [done|].
  destruct (less x y); [|done]. rewrite IH. apply Permutation_swap.
Qed.

(** The sorted part is kept last element first: no element is less than
    one further down the list. *)
Lemma insert_back_sorted x sorted :
  StronglySorted (λ a b, less a b = false) sorted →
  StronglySorted (λ a b, less a b = false) (insert_back less x sorted).
Proof.
  destruct Hless as (Hirr & Htrans & Hneg).
  induction sorted as [|y sorted IH]; intros Hs; simpl.
  - repeat constructor.
  - apply StronglySorted_inv in Hs as [Hs Hy].
    destruct (less x y) eqn:Hxy.
    + constructor; [by apply IH|].
      rewrite insert_back_Permutation. constructor; [|done].
      by apply less_asym.
    + constructor; [by constructor|]. constructor; [done|].
      eapply Forall_impl; [exact Hy|]. intros z Hyz. by apply (Hneg x y z).
Qed.

Lemma fold_insert_back data sorted :
  StronglySorted (λ a b, less a b = false) sorted →
  fold_left (λ sorted x, insert_back less x sorted) data sorted ≡ₚ data ++ sorted
  ∧ StronglySorted (λ a b, less a b = false)
      (fold_left (λ sorted x, insert_back less x sorted) data sorted).
Proof.
  revert sorted. induction data as [|x data IH]; intros sorted Hs; simpl; [done|].
  destruct (IH (insert_back less x sorted)) as [Hp Hsorted];
    [by apply insert_back_sorted|].
  split; [|done]. rewrite Hp, insert_back_Permutation.
  by rewrite <- Permutation_middle.
Qed.

Lemma StronglySorted_rev (R : relation A) l :
  StronglySorted R l → StronglySorted (flip R) (rev l).
Proof.
  induction 1 as [|x l Hl IH Hx]; simpl; [constructor|].
  apply StronglySorted_app. split_and!; [|done|repeat constructor].
  intros x1 x2 Hx1 Hx2. apply list_elem_of_singleton in Hx2 as ->.
  rewrite Forall_forall in Hx. apply Hx.
  by rewrite list_elem_of_In, in_rev, <- list_elem_of_In.
Qed.

Lemma insertionSort_sorts data :
  insertionSort less data ≡ₚ data
  ∧ StronglySorted (λ a b, less b a = false) (insertionSort less data).
Proof.
  unfold insertionSort.
  destruct (fold_insert_back data []) as [Hp Hs]; [constructor|].
  split.
  - rewrite <- Permutation_rev, Hp. by rewrite app_nil_r.
  - by apply StronglySorted_rev in Hs.
Qed.

Lemma gap6_go_Permutation before window rest :
  gap6_go less before window rest ≡ₚ rev before ++ window ++ rest.
Proof.
  revert before window.
  induction rest as [|x rest IH]; intros before window; simpl; [done|].
  destruct window as [|y window]; [done|].
  destruct (less x y); rewrite IH; simpl; rewrite <- !app_assoc; simpl.
  - rewrite <- !Permutation_middle. apply Permutation_swap.
  - by rewrite <- !Permutation_middle.
Qed.

Lemma sort_Slice_short_sorts data :
  sort_Slice_short less data ≡ₚ data
  ∧ StronglySorted (λ a b, less b a = false) (sort_Slice_short less data).
Proof.
  unfold sort_Slice_short.
  destruct (insertionSort_sorts (gap6_pass less data)) as [Hp Hs].
  split; [|done]. rewrite Hp. unfold gap6_pass.
  rewrite gap6_go_Permutation. simpl. by rewrite take_drop.
Qed.
End insertion.

Lemma sort_Slice_short_contract : sorts (@sort_Slice_short item).
Proof. intros less l Hless. by apply sort_Slice_short_sorts. Qed.

(** C2, as amended: for every directory listing, whatever function meets
    the contract of [sort.Slice], the entries given to the template are
    the enumerated entries, rearranged so that no entry comes before one
    whose lower-cased display name is less in the byte order of Go strings;
    "Banana" and "apple" come out as "apple", "Banana".  Nothing is said
    of the order of entries whose lower-cased names are equal. *)
Theorem processDir_items_sorted (lib : Library) (relpath : string) (fis : list FileInfo) :
  sorts (sort_Slice lib) →
  processDir_items lib relpath fis ≡ₚ collect_items relpath fis
  ∧ StronglySorted
      (λ a b, string_lt (strings_ToLower lib (Name b)) (strings_ToLower lib (Name a)) = false)
      (processDir_items lib relpath fis)
  ∧ map Name (processDir_items lib relpath (map plain_file ["Banana"; "apple"]))
    = ["apple"; "Banana"].
Proof.
  intros Hsort. unfold processDir_items.
  split_and!; try apply (Hsort _ _ (less_lower_strict_weak_order lib)).
  rewrite collect_items_map. simpl map at 2.
  match goal with |- map Name ?l = _ => remember l as sorted eqn:Hsorted end.
  destruct (Hsort (less_lower lib)
              [make_item relpath (plain_file "Banana");
               make_item relpath (plain_file "apple")]
              (less_lower_strict_weak_order lib)) as [Hp Hs].
  rewrite <- Hsorted in Hp, Hs. clear Hsorted.
  symmetry in Hp. apply Permutation_length_2_inv in Hp as [->| ->]; [|done].
  apply StronglySorted_inv in Hs as [_ Hs]. apply Forall_inv in Hs.
  vm_compute in Hs. done.
Qed.

Lemma processDir_items_sorted_witness :
  sorts (sort_Slice demo_lib)
  ∧ processDir_items demo_lib "/" demo_listing ≡ₚ collect_items "/" demo_listing.
Proof.
  split; [exact sort_Slice_short_contract|].
  apply (processDir_items_sorted demo_lib "/" demo_listing).
  exact sort_Slice_short_contract.
Defined.

(** The same for the entries as they are rendered, whatever function
    meets the contract of [sort.Slice]. *)
Lemma rendered_URI_decodes lib relpath fis it :
  sorts (sort_Slice lib) →
  it ∈ processDir_items lib relpath fis →
  ∃ fi, fi ∈ fis
        ∧ url_PathUnescape (URI it) = Unescaped (path_Join [relpath; fi_Name fi]).
Proof.
  intros Hsort Hin.
  destruct (Hsort (less_lower lib) (collect_items relpath fis)
              (less_lower_strict_weak_order lib)) as [Hp _].
  unfold processDir_items in Hin. rewrite Hp, collect_items_map in Hin.
  apply list_elem_of_In, in_map_iff in Hin as (fi & <- & Hfi).
  exists fi. split; [by apply list_elem_of_In|]. apply PathUnescape_PathEscape.
Qed.

(** C2 as stated fails: the routine [sort.Slice] of Go up to 1.18 runs on
    seven entries meets the contract, and moves "readme" before "Readme",
    which the directory enumerated first. *)
Lemma processDir_items_not_stable :
  sorts (sort_Slice demo_lib)
  ∧ map Name (processDir_items demo_lib "/" demo_listing)
    = ["about"; "readme"; "Readme"; "t"; "u"; "v"; "w"]
  ∧ ¬ (StronglySorted
         (λ a b, string_lt (strings_ToLower demo_lib (Name b))
                           (strings_ToLower demo_lib (Name a)) = false)
         (processDir_items demo_lib "/" demo_listing)
       ∧ keeps_order_of_ties (λ it, strings_ToLower demo_lib (Name it))
           (collect_items "/" demo_listing)
           (processDir_items demo_lib "/" demo_listing)).
Proof.
  split_and!; [exact sort_Slice_short_contract|reflexivity|].
  intros [_ Hties]. specialize (Hties "readme").
  vm_compute in Hties. discriminate Hties.
Qed.

(** ** Running handlers *)

(** Unfolds the monad and the primitives of the response writer and the
    log. *)
Ltac run :=
  cbv beta iota zeta delta
    [mbind mret M_bind M_ret panic get_world modify_world get_resp modify_resp
     log_append log_Println mylog_LogRequest mylog_LogMessage
     Header_Set WriteHeader Write http_Error];
  cbn [world resp Header sent body disk fault logs].

(** C9: for every request whose method is neither GET nor POST, ServeHTTP
    returns without having changed anything: no byte of a response, no log
    record, the same disk; the response that goes out is the empty 200 of
    net/http. *)
Theorem ServeHTTP_other_method (lib : Library) (fs : FileServer) (req : Request) :
  Method req ≠ "GET" → Method req ≠ "POST" →
  (∀ st, ServeHTTP lib fs req st = (st, Normal tt))
  ∧ (BasicAuth fs = "" → ∀ wd, serve lib fs req wd = (wd, empty_200)).
Proof.
  intros Hget Hpost.
  assert (∀ st, ServeHTTP lib fs req st = (st, Normal tt)) as Hserve.
  { intros st. unfold ServeHTTP, ServeHTTP_switch.
    by rewrite !bool_decide_false by done. }
  split; [done|]. intros Hauth wd. unfold serve, Start_router.
  rewrite bool_decide_false by (by intros []). by rewrite Hserve.
Qed.

Lemma ServeHTTP_other_method_witness :
  serve demo_lib demo_fs (demo_request "DELETE" "/docs/report.txt") demo_world
  = (demo_world, empty_200).
Proof.
  apply (ServeHTTP_other_method demo_lib demo_fs (demo_request "DELETE" "/docs/report.txt"));
    [discriminate|discriminate|reflexivity].
Defined.

(** ** The Basic-auth gate *)

Lemma basicAuth_rejects lib fs handler req st :
  auth_rejected lib fs req →
  basicAuth lib fs handler req st
  = http_Error "Not authorized" StatusUnauthorized (challenged st).
Proof.
  intros Hrej. unfold basicAuth.
  assert (Request_BasicAuth lib req = None
          ∨ ∃ u p, Request_BasicAuth lib req = Some (u, p)
                   ∧ (u ≠ "gopher" ∨ p ≠ BasicAuth fs)) as [Hnone|(u & p & Hsome & Hbad)].
  { destruct Hrej as [Hempty|[?|?]]; [left|by left|by right].
    unfold Request_BasicAuth. by rewrite Hempty. }
  - rewrite Hnone. reflexivity.
  - rewrite Hsome.
    assert (bool_decide (u ≠ "gopher") || bool_decide (p ≠ BasicAuth fs) = true) as Hor.
    { apply orb_true_iff. destruct Hbad; [left|right]; by apply bool_decide_true. }
    change (Header_Set "WWW-Authenticate"
              ("Basic realm=" +:+ quote +:+ "Restricted" +:+ quote) ≫= _)
      with (Header_Set "WWW-Authenticate" challenge_value ≫=
              λ _, if bool_decide (u ≠ "gopher") || bool_decide (p ≠ BasicAuth fs)
                   then http_Error "Not authorized" StatusUnauthorized
                   else ServeHTTP lib fs req).
    rewrite Hor. reflexivity.
Qed.

(** C3: when a secret is configured, a request whose credentials do not
    pass (no Authorization header, another user name, another password)
    gets the 401 response with the WWW-Authenticate challenge, and the
    world is as before: nothing downstream ran.  A request with the user
    gopher and the secret goes on to ServeHTTP.  Without a secret the
    registered handler is ServeHTTP itself. *)
Theorem Start_router_auth (lib : Library) (fs : FileServer) (req : Request) :
  (BasicAuth fs ≠ "" → auth_rejected lib fs req →
   ∀ wd, serve lib fs req wd = (wd, unauthorized_response))
  ∧ (BasicAuth fs ≠ "" →
     Request_BasicAuth lib req = Some ("gopher", BasicAuth fs) →
     ∀ st, Start_router lib fs req st = ServeHTTP lib fs req (challenged st))
  ∧ (BasicAuth fs = "" → Start_router lib fs req = ServeHTTP lib fs req).
Proof.
  split_and!.
  - intros Hsecret Hrej wd. unfold serve, Start_router.
    rewrite bool_decide_true by done.
    rewrite basicAuth_rejects by done. reflexivity.
  - intros Hsecret Hok st. unfold Start_router.
    rewrite bool_decide_true by done. unfold basicAuth.
    rewrite Hok. rewrite !bool_decide_false by (by intros []). reflexivity.
  - intros Hnone. unfold Start_router.
    by rewrite bool_decide_false by (by intros []).
Qed.

Lemma Start_router_auth_witness :
  serve demo_lib demo_fs_auth (demo_request "GET" "/") demo_world
  = (demo_world, unauthorized_response)
  ∧ serve demo_lib demo_fs_auth
      (with_authorization "Basic gopher:wrong" (demo_request "GET" "/")) demo_world
    = (demo_world, unauthorized_response)
  ∧ Start_router demo_lib demo_fs_auth
      (with_authorization "Basic gopher:s3cret" (demo_request "GET" "/")) demo_state
    = ServeHTTP demo_lib demo_fs_auth
        (with_authorization "Basic gopher:s3cret" (demo_request "GET" "/"))
        (challenged demo_state)
  ∧ Start_router demo_lib demo_fs (demo_request "GET" "/")
    = ServeHTTP demo_lib demo_fs (demo_request "GET" "/").
Proof.
  split_and!.
  - apply (Start_router_auth demo_lib demo_fs_auth (demo_request "GET" "/"));
      [discriminate|by left].
  - apply (Start_router_auth demo_lib demo_fs_auth
             (with_authorization "Basic gopher:wrong" (demo_request "GET" "/")));
      [discriminate|].
    right; right. exists "gopher", "wrong". split; [reflexivity|right; discriminate].
  - apply (Start_router_auth demo_lib demo_fs_auth
             (with_authorization "Basic gopher:s3cret" (demo_request "GET" "/")));
      [discriminate|reflexivity].
  - apply (Start_router_auth demo_lib demo_fs (demo_request "GET" "/")). reflexivity.
Defined.

(** ** The error pages *)

Lemma write_all_chunks chunks st :
  write_all chunks st = (add_chunks chunks st, Normal tt).
Proof.
  revert st. induction chunks as [|c chunks IH]; intros [wd w]; [done|].
  simpl write_all. run. rewrite IH. unfold add_chunks. simpl. do 3 f_equal.
  unfold write_chunk. by destruct w as [h [s|] b].
Qed.

Lemma add_chunks_world chunks st : world (add_chunks chunks st) = world st.
Proof. done. Qed.

(** Writing chunks appends them to the body. *)
Lemma add_chunks_body chunks st :
  body (resp (add_chunks chunks st)) = body (resp st) +:+ String.concat "" chunks.
Proof.
  destruct st as [wd w]. unfold add_chunks. simpl. revert w.
  induction chunks as [|c chunks IH]; intros w; simpl.
  - by rewrite string_app_nil_r.
  - rewrite IH. simpl. rewrite string_app_assoc. f_equal.
    destruct chunks; simpl; [by rewrite string_app_nil_r|done].
Qed.

Lemma handle404_run lib req st :
  handle404 lib req st = (after_404 lib req st, Normal tt).
Proof.
  unfold handle404, template_run. run. rewrite write_all_chunks.
  unfold after_404, add_logs, access_record, error_page. simpl.
  by rewrite <- app_assoc.
Qed.

Lemma handle500_run lib req st :
  handle500 lib req st = (after_500 lib req st, Normal tt).
Proof.
  unfold handle500, template_run. run. rewrite write_all_chunks.
  unfold after_500, add_logs, access_record, error_page. simpl.
  by rewrite <- app_assoc.
Qed.

(** C4: for every GET request, when opening the resolved path fails
    because the path does not exist, the server appends the access record
    with status "404" and a message to the log and writes the 404 page;
    when it fails because permission is denied, it appends the access record
    with status "500" and a message and writes the 500 page; in both cases
    that is all ServeHTTP does for the request. *)
Theorem ServeHTTP_open_failure (lib : Library) (fs : FileServer) (req : Request)
    (opened : string) (st : State) :
  Method req = "GET" →
  handler_open fs (URL_Path req) = Some opened →
  (os_Open (world st) opened = inr ENOENT →
   ServeHTTP lib fs req st = (after_404 lib req st, Normal tt))
  ∧ (∀ err, os_Open (world st) opened = inr err → os_IsPermission err = true →
     ServeHTTP lib fs req st = (after_500 lib req st, Normal tt)).
Proof.
  intros Hget Hopen. destruct st as [wd w]. simpl world.
  assert (∀ r, handler lib fs req {| world := wd; resp := w |} = r →
               ServeHTTP lib fs req {| world := wd; resp := w |}
               = match r with
                 | (st', Panicking err) => http_Error err StatusInternalServerError st'
                 | (st', Normal _) => (st', Normal tt)
                 end) as Hserve.
  { intros r <-. unfold ServeHTTP, ServeHTTP_switch.
    by rewrite bool_decide_true by done. }
  split.
  - intros Herr. rewrite (Hserve (after_404 lib req {| world := wd; resp := w |}, Normal tt)); [done|].
    unfold handler. rewrite Hopen. run. rewrite Herr. simpl.
    apply handle404_run.
  - intros err Herr Hperm. rewrite (Hserve (after_500 lib req {| world := wd; resp := w |}, Normal tt)); [done|].
    unfold handler. rewrite Hopen. run. rewrite Herr.
    assert (os_IsNotExist err = false) as ->.
    { unfold os_IsPermission in Hperm. unfold os_IsNotExist.
      destruct err; try done. }
    rewrite Hperm. apply handle500_run.
Qed.

Lemma ServeHTTP_open_failure_witness :
  ServeHTTP demo_lib demo_fs (demo_request "GET" "/missing/file.txt") demo_state
  = (after_404 demo_lib (demo_request "GET" "/missing/file.txt") demo_state, Normal tt)
  ∧ ServeHTTP demo_lib demo_fs (demo_request "GET" "/secret.txt") demo_state
    = (after_500 demo_lib (demo_request "GET" "/secret.txt") demo_state, Normal tt).
Proof.
  split.
  - apply (ServeHTTP_open_failure demo_lib demo_fs
             (demo_request "GET" "/missing/file.txt") "/srv/www/missing/file.txt");
      reflexivity.
  - apply (ServeHTTP_open_failure demo_lib demo_fs
             (demo_request "GET" "/secret.txt") "/srv/www/secret.txt" demo_state
             eq_refl eq_refl) with (err := EACCES); reflexivity.
Defined.

Example missing_file_log :
  logs (world (after_404 demo_lib (demo_request "GET" "/missing/file.txt") demo_state))
  = [AccessLog "10.0.0.7:40000" "GET" "/missing/file.txt" "HTTP/1.1" "404";
     MessageLog "404:   File not found"].
Proof. reflexivity. Qed.

(** ** Upload *)

Lemma write_truncating_run call name data st :
  write_truncating call name data st
  = (set_world (truncate (world st) call name data).1 st,
     Normal (truncate (world st) call name data).2).
Proof.
  destruct st as [wd w]. unfold write_truncating, truncate, set_world. run.
  destruct (fault wd call name); [done|].
  destruct (disk wd !! name) as [[]|]; done.
Qed.

Lemma report500_run lib req {E} (err : option E) msg st :
  report500 lib req err msg st = (reported lib req err msg st, Normal tt).
Proof.
  destruct err; [|done]. unfold report500, reported. run.
  by rewrite handle500_run.
Qed.

(** [upload] with a file in the form runs every step and ends in the
    redirect. *)
Lemma upload_run lib fs req file st :
  FormFile req "file" = FormFileOk file →
  upload lib fs req st
  = http_Redirect lib req (upload_target (URL_Path req)) StatusSeeOther
      (upload_before_redirect lib fs req file st).
Proof.
  intros Hfile. unfold upload, upload_before_redirect. rewrite Hfile.
  unfold os_Create, ioutil_WriteFile, ioutil_ReadAll.
  unfold mbind at 1, M_bind at 1. rewrite write_truncating_run.
  destruct (truncate (world st) SysCreate _ "") as [wd1 c]. simpl fst; simpl snd.
  unfold mbind at 1, M_bind at 1. rewrite report500_run.
  unfold mbind at 1, M_bind at 1. rewrite report500_run.
  unfold mbind at 1, M_bind at 1. rewrite write_truncating_run.
  destruct (truncate _ SysWrite _ _) as [wd3 w]. simpl fst; simpl snd.
  unfold mbind at 1, M_bind at 1. rewrite report500_run.
  reflexivity.
Qed.

Lemma truncate_same_disk wd wd' call name data :
  disk wd = disk wd' → fault wd = fault wd' →
  (truncate wd call name data).2 = (truncate wd' call name data).2
  ∧ disk (truncate wd call name data).1 = disk (truncate wd' call name data).1.
Proof.
  intros Hd Hf. unfold truncate. rewrite Hd, Hf.
  destruct (fault wd' call name); [done|].
  destruct (disk wd' !! name) as [[]|]; simpl; by rewrite ?Hd.
Qed.

Lemma truncate_keeps wd call name data :
  fault (truncate wd call name data).1 = fault wd
  ∧ logs (truncate wd call name data).1 = logs wd.
Proof.
  unfold truncate. destruct (fault wd call name); [done|].
  destruct (disk wd !! name) as [[]|]; done.
Qed.

Lemma string_concat_app a b :
  String.concat "" (a ++ b) = String.concat "" a +:+ String.concat "" b.
Proof.
  induction a as [|x a IH]; [done|]. simpl app.
  destruct a as [|y a].
  - simpl. destruct b; simpl; [by rewrite string_app_nil_r|done].
  - change (String.concat "" (x :: (y :: a) ++ b))
      with (x +:+ String.concat "" ((y :: a) ++ b)).
    rewrite IH. change (String.concat "" (x :: y :: a))
      with (x +:+ String.concat "" (y :: a)).
    by rewrite string_app_assoc.
Qed.

Lemma add_chunks_Header chunks st :
  Header (resp (add_chunks chunks st)) = Header (resp st).
Proof.
  destruct st as [wd w]. unfold add_chunks. cbn [resp]. revert w.
  induction chunks as [|c cs IH]; intros w; [done|]. simpl. by rewrite IH.
Qed.

(** What a reported failure leaves: disk and faults as they were, three
    records in the log, the 500 page in the body. *)
Lemma reported_effects lib req {E} (err : option E) msg st :
  disk (world (reported lib req err msg st)) = disk (world st)
  ∧ fault (world (reported lib req err msg st)) = fault (world st)
  ∧ logs (world (reported lib req err msg st))
    = logs (world st) ++ failure_logs req err msg
  ∧ body (resp (reported lib req err msg st))
    = body (resp st) +:+ String.concat "" (failure_pages lib err)
  ∧ Header (resp (reported lib req err msg st)) = Header (resp st).
Proof.
  destruct err as [e|]; unfold reported, failure_logs, failure_pages.
  - unfold after_500. rewrite add_chunks_body, add_chunks_Header.
    split_and!; try done. cbn. by rewrite <- app_assoc.
  - by rewrite app_nil_r, string_app_nil_r.
Qed.

(** [http.Redirect] leaves the world alone and sets the Location header;
    for a method other than GET it writes no body. *)
Lemma http_Redirect_run lib req url code st :
  ∃ st', http_Redirect lib req url code st = (st', Normal tt)
    ∧ world st' = world st
    ∧ Header (resp st') !! "Location" = Some (Redirect_location lib (URL_Path req) url)
    ∧ (Method req ≠ "GET" → body (resp st') = body (resp st))
    ∧ (Method req ≠ "GET" → Method req ≠ "HEAD" → sent (resp st) = None →
       resp st' = {| Header := <["Location" := Redirect_location lib (URL_Path req) url]>
                                 (Header (resp st));
                     sent := Some (code, <["Location" := Redirect_location lib (URL_Path req) url]>
                                           (Header (resp st)));
                     body := body (resp st) |}).
Proof.
  destruct st as [wd [h s b]]. unfold http_Redirect. run.
  destruct (bool_decide (Method req = "GET")) eqn:Hget;
    destruct (bool_decide (Method req = "HEAD")) eqn:Hhead;
    destruct (bool_decide (is_Some (h !! "Content-Type"))) eqn:Hct;
    simpl; run; eexists; (split; [reflexivity|]); simpl;
    apply bool_decide_eq_true in Hget || apply bool_decide_eq_false in Hget;
    apply bool_decide_eq_true in Hhead || apply bool_decide_eq_false in Hhead;
    split_and!; try done;
    try (destruct s; simpl; by rewrite ?lookup_insert_ne, ?lookup_insert_eq by done);
    try (intros; by subst).
Qed.

Lemma upload_before_redirect_effects lib fs req file st :
  let savepath := upload_savepath fs (URL_Path req) (Filename file) in
  let create := truncate (world st) SysCreate savepath "" in
  let write := truncate create.1 SysWrite savepath (part_data file) in
  let st' := upload_before_redirect lib fs req file st in
  disk (world st') = disk write.1
  ∧ logs (world st')
    = logs (world st) ++ failure_logs req create.2 msg_create
      ++ failure_logs req (part_err file) msg_read
      ++ failure_logs req write.2 msg_write ++ [access_record req "200"]
  ∧ body (resp st')
    = body (resp st) +:+ String.concat ""
        (failure_pages lib create.2 ++ failure_pages lib (part_err file)
         ++ failure_pages lib write.2)
  ∧ Header (resp st') = Header (resp st).
Proof.
  intros savepath create write st'. subst st'. unfold upload_before_redirect.
  fold savepath. fold create. destruct create as [wd1 c] eqn:Hc.
  set (st1 := reported lib req c msg_create (set_world wd1 st)).
  set (st2 := reported lib req (part_err file) msg_read st1).
  destruct (reported_effects lib req c msg_create (set_world wd1 st))
    as (Hd1 & Hf1 & Hl1 & Hb1 & Hh1). fold st1 in Hd1, Hf1, Hl1, Hb1, Hh1.
  destruct (reported_effects lib req (part_err file) msg_read st1)
    as (Hd2 & Hf2 & Hl2 & Hb2 & Hh2). fold st2 in Hd2, Hf2, Hl2, Hb2, Hh2.
  destruct (truncate_same_disk (world st2) wd1 SysWrite savepath (part_data file))
    as [He Hdisk]; [by rewrite Hd2, Hd1|by rewrite Hf2, Hf1|].
  destruct (truncate_keeps (world st2) SysWrite savepath (part_data file)) as [_ Hl3].
  destruct (truncate_keeps (world st) SysCreate savepath "") as [_ Hl0].
  fold create in Hl0. rewrite Hc in Hl0. simpl in Hl0.
  subst write. simpl fst in *; simpl snd in *.
  destruct (truncate (world st2) SysWrite savepath (part_data file)) as [wd3 w] eqn:Hw.
  simpl in He, Hdisk, Hl3. rewrite <- He.
  destruct (reported_effects lib req w msg_write (set_world wd3 st2))
    as (Hd3 & Hf3 & Hl3' & Hb3 & Hh3).
  cbn [add_logs world resp disk logs].
  rewrite Hd3, Hl3', Hb3, Hh3. cbn [set_world world resp].
  rewrite Hl3, Hl2, Hl1, Hb2, Hb1, Hh2, Hh1. cbn [set_world world resp].
  rewrite Hl0, !string_concat_app, !string_app_assoc, <- !app_assoc.
  done.
Qed.

(** C5: in an upload with a file, each of the three steps that fails
    (creating the destination, reading the payload, writing it) leaves the
    records and the page of [handle500], and the handler goes on: the
    later steps are tried on the same path, the access record "200" is the
    last of the log and the redirect is issued, whatever failed. *)
Theorem upload_reports_and_continues (lib : Library) (fs : FileServer) (req : Request)
    (file : FilePart) (st : State) :
  FormFile req "file" = FormFileOk file →
  let savepath := upload_savepath fs (URL_Path req) (Filename file) in
  let create := truncate (world st) SysCreate savepath "" in
  let write := truncate create.1 SysWrite savepath (part_data file) in
  ∃ st', upload lib fs req st = (st', Normal tt)
    ∧ disk (world st') = disk write.1
    ∧ logs (world st')
      = logs (world st) ++ failure_logs req create.2 msg_create
        ++ failure_logs req (part_err file) msg_read
        ++ failure_logs req write.2 msg_write ++ [access_record req "200"]
    ∧ (Method req ≠ "GET" →
       body (resp st')
       = body (resp st) +:+ String.concat ""
           (failure_pages lib create.2 ++ failure_pages lib (part_err file)
            ++ failure_pages lib write.2))
    ∧ Header (resp st') !! "Location"
      = Some (Redirect_location lib (URL_Path req) (upload_target (URL_Path req))).
Proof.
  intros Hfile savepath create write. rewrite (upload_run _ _ _ _ _ Hfile).
  destruct (http_Redirect_run lib req (upload_target (URL_Path req)) StatusSeeOther
              (upload_before_redirect lib fs req file st))
    as (st' & Hrun & Hworld & Hloc & Hbody & _).
  destruct (upload_before_redirect_effects lib fs req file st)
    as (Hd & Hl & Hb & _).
  exists st'. rewrite Hworld. split_and!; try done.
  intros Hm. by rewrite Hbody, Hb.
Qed.

Lemma upload_reports_and_continues_witness :
  ∃ st', upload demo_lib demo_fs demo_upload
           {| world := demo_world_no_create; resp := new_response |} = (st', Normal tt)
    ∧ logs (world st')
      = [StdLog msg_create;
         AccessLog "10.0.0.7:40000" "POST" "/docs/" "HTTP/1.1" "500";
         MessageLog "500:   No permission to access the file";
         AccessLog "10.0.0.7:40000" "POST" "/docs/" "HTTP/1.1" "200"]
    ∧ disk (world st') !! "/srv/www/docs/report.txt" = Some (RegularFile "new").
Proof.
  destruct (upload_reports_and_continues demo_lib demo_fs demo_upload demo_part
              {| world := demo_world_no_create; resp := new_response |} eq_refl)
    as (st' & Hrun & Hdisk & Hlogs & _).
  exists st'. split; [exact Hrun|]. rewrite Hdisk, Hlogs. split; reflexivity.
Defined.

Lemma split_go_nonempty sep cur s : split_go sep cur s ≠ [].
Proof.
  revert cur. induction s as [|c s IH]; intros cur; simpl; [done|].
  destruct (Ascii.eqb c sep); [done|apply IH].
Qed.

(** Joining what [strings.Split] gave, with the separator, is the
    string. *)
Lemma Join_split_go cur s :
  strings_Join (split_go c_slash cur s) "/" = string_of_list_ascii (rev cur) +:+ s.
Proof.
  revert cur. induction s as [|c s IH]; intros cur; simpl.
  - by rewrite string_app_nil_r.
  - destruct (Ascii.eqb c c_slash) eqn:Hc.
    + apply ascii_eqb_true in Hc as ->.
      change (strings_Join (string_of_list_ascii (rev cur) :: split_go c_slash [] s) "/")
        with (match split_go c_slash [] s with
              | [] => string_of_list_ascii (rev cur)
              | _ => string_of_list_ascii (rev cur) +:+ "/"
                     +:+ strings_Join (split_go c_slash [] s) "/"
              end).
      destruct (split_go c_slash [] s) eqn:E.
      { by apply split_go_nonempty in E. }
      rewrite <- E, IH. done.
    + rewrite IH. simpl. rewrite string_of_list_ascii_app. simpl.
      by rewrite string_app_assoc.
Qed.

Lemma split_go_slash cur a b :
  split_go c_slash cur (a +:+ String c_slash b)
  = removelast (split_go c_slash cur a)
    ++ [List.last (split_go c_slash cur a) ""] ++ split_go c_slash [] b.
Proof.
  revert cur. induction a as [|c a IH]; intros cur; [done|].
  rewrite string_app_cons. simpl. destruct (Ascii.eqb c c_slash).
  - rewrite IH.
    destruct (split_go c_slash [] a) eqn:E; [|done].
    by apply split_go_nonempty in E.
  - apply IH.
Qed.

Lemma split_go_last cur s :
  split_go c_slash cur s
  = removelast (split_go c_slash cur s) ++ [List.last (split_go c_slash cur s) ""].
Proof.
  apply app_removelast_last, split_go_nonempty.
Qed.

(** The target of an upload is the request path without its last slash
    and what follows it. *)
Lemma upload_target_strip dir last :
  c_slash ∉ list_ascii_of_string last →
  upload_target (dir +:+ "/" +:+ last) = dir.
Proof.
  intros Hno. unfold upload_target, strings_Split.
  change (dir +:+ "/" +:+ last) with (dir +:+ String c_slash last).
  rewrite split_go_slash.
  replace (split_go c_slash [] last) with [last].
  2:{ rewrite <- (string_app_nil_r last) at 2. rewrite split_go_name by done.
      simpl. by rewrite app_nil_r, rev_involutive, string_of_list_ascii_of_string. }
  rewrite !app_assoc, removelast_last, <- split_go_last.
  apply (Join_split_go [] dir).
Qed.

Example upload_target_docs :
  upload_target "/docs/" = "/docs" ∧ upload_target "/" = ""
  ∧ upload_savepath demo_fs "/docs/" "report.txt" = "/srv/www/docs/report.txt".
Proof. split_and!; reflexivity. Qed.

(** C6: for every upload in which the three steps succeed, of a file named
    [Filename file] to the request path [P]: the destination is the served
    root, then [P] without its last segment, a slash and the file name;
    after it the file at the destination holds the bytes of the payload,
    whatever was there before; the log has the access record "200"; and the
    response is the 303 of [http.Redirect] to [P] without its last
    segment. *)
Theorem upload_success (lib : Library) (fs : FileServer) (req : Request)
    (file : FilePart) (st : State) :
  Method req = "POST" →
  FormFile req "file" = FormFileOk file →
  sent (resp st) = None →
  let target := upload_target (URL_Path req) in
  let savepath := Webroot fs +:+ target +:+ "/" +:+ Filename file in
  let location := Redirect_location lib (URL_Path req) target in
  fault (world st) SysCreate savepath = None →
  fault (world st) SysWrite savepath = None →
  (∀ entries, disk (world st) !! savepath ≠ Some (Directory entries)) →
  part_err file = None →
  (∀ dir last, URL_Path req = dir +:+ "/" +:+ last →
               c_slash ∉ list_ascii_of_string last → target = dir)
  ∧ ∃ st', ServeHTTP lib fs req st = (st', Normal tt)
    ∧ disk (world st') = <[savepath := RegularFile (part_data file)]> (disk (world st))
    ∧ disk (world st') !! savepath = Some (RegularFile (part_data file))
    ∧ logs (world st') = logs (world st) ++ [access_record req "200"]
    ∧ resp st' = {| Header := <["Location" := location]> (Header (resp st));
                    sent := Some (StatusSeeOther,
                                  <["Location" := location]> (Header (resp st)));
                    body := body (resp st) |}.
Proof.
  intros Hpost Hfile Hsent target savepath location Hcreate Hwrite Hnodir Hread.
  split.
  { intros dir last Heq Hlast. subst target. rewrite Heq.
    by apply upload_target_strip. }
  destruct st as [wd w]. cbn [world resp] in *.
  unfold ServeHTTP, ServeHTTP_switch. rewrite Hpost.
  rewrite bool_decide_false by done.
  rewrite bool_decide_true by done. rewrite (upload_run _ _ _ _ _ Hfile).
  assert (upload_before_redirect lib fs req file {| world := wd; resp := w |}
          = {| world := {| disk := <[savepath := RegularFile (part_data file)]> (disk wd);
                           fault := fault wd;
                           logs := logs wd ++ [access_record req "200"] |};
               resp := w |}) as ->.
  { unfold upload_before_redirect, upload_savepath. fold target. fold savepath.
    cbn [world]. unfold truncate at 1. rewrite Hcreate.
    destruct (disk wd !! savepath) as [[|entries]|] eqn:E;
      [| by destruct (Hnodir entries) |];
      rewrite Hread; cbn [reported set_world world resp];
      unfold truncate; cbn [set_disk disk fault logs];
      rewrite Hwrite, lookup_insert_eq;
      cbn [reported set_world add_logs world resp set_disk disk fault logs];
      by rewrite insert_insert_eq. }
  destruct (http_Redirect_run lib req target StatusSeeOther
              {| world := {| disk := <[savepath := RegularFile (part_data file)]> (disk wd);
                             fault := fault wd;
                             logs := logs wd ++ [access_record req "200"] |};
                 resp := w |})
    as (st' & Hrun & Hworld & _ & _ & Hresp).
  fold target. rewrite Hrun. exists st'. split; [done|].
  rewrite Hworld, Hresp by (try rewrite Hpost; done). cbn [world resp disk logs].
  split_and!; [done|apply lookup_insert_eq|done|done].
Qed.

Lemma upload_success_witness :
  disk demo_world !! "/srv/www/docs/report.txt" = Some (RegularFile "old")
  ∧ ∃ st', ServeHTTP demo_lib demo_fs demo_upload demo_state = (st', Normal tt)
    ∧ disk (world st') !! "/srv/www/docs/report.txt" = Some (RegularFile "new")
    ∧ resp st' = redirect_response "/docs" StatusSeeOther.
Proof.
  split; [reflexivity|].
  destruct (upload_success demo_lib demo_fs demo_upload demo_part demo_state)
    as (_ & st' & Hserve & _ & Hfile & _ & Hresp); try reflexivity.
  { intros entries. discriminate. }
  exists st'. split; [exact Hserve|]. split; [exact Hfile|exact Hresp].
Defined.

(** ** Panics and the recover of ServeHTTP *)

Lemma processDir_returns lib req file relpath st :
  ∃ st', processDir lib req file relpath st = (st', Normal tt).
Proof.
  destruct st as [wd w]. unfold processDir. run.
  destruct (File_Readdir wd file).
  - unfold template_run. rewrite write_all_chunks. by eexists.
  - rewrite handle404_run. by eexists.
Qed.

Lemma sendFile_returns file st : ∃ st', sendFile file st = (st', Normal tt).
Proof. unfold sendFile. destruct (file_node file); run; by eexists. Qed.

(** [handler] returns, or panics on the nil [FileInfo] of a failed [Stat],
    right after the access record "200" and before any write. *)
Lemma handler_outcome lib fs req st :
  (∃ st', handler lib fs req st = (st', Normal tt))
  ∨ handler lib fs req st
    = (add_logs [access_record req "200"] st, Panicking nil_dereference).
Proof.
  destruct st as [wd w]. unfold handler.
  destruct (handler_open fs (URL_Path req)) as [opened|]; [|left; by eexists].
  run. destruct (os_Open wd opened) as [file|err].
  - match goal with |- context [File_Stat_IsDir ?x file] =>
      destruct (File_Stat_IsDir x file) as [[|]|] end.
    + left. apply processDir_returns.
    + left. apply sendFile_returns.
    + by right.
  - left. destruct (os_IsNotExist err); [rewrite handle404_run; by eexists|].
    destruct (os_IsPermission err); [rewrite handle500_run; by eexists|].
    by eexists.
Qed.

(** [upload] returns, or panics on the nil file of a form without one,
    right after the log line and before anything else. *)
Lemma upload_outcome lib fs req st :
  (∃ st', upload lib fs req st = (st', Normal tt))
  ∨ ∃ err, FormFile req "file" = FormFileErr err
           ∧ upload lib fs req st = (add_logs [no_file_line err] st, Panicking nil_dereference).
Proof.
  destruct (FormFile req "file") as [file|err] eqn:Hfile.
  - left. rewrite (upload_run _ _ _ _ _ Hfile).
    destruct (http_Redirect_run lib req (upload_target (URL_Path req)) StatusSeeOther
                (upload_before_redirect lib fs req file st)) as (st' & Hrun & _).
    by exists st'.
  - right. exists err. split; [done|]. unfold upload. rewrite Hfile.
    destruct st as [wd w]. reflexivity.
Qed.

Lemma http_Error_run msg code st :
  ∃ st', http_Error msg code st = (st', Normal tt)
    ∧ world st' = world st
    ∧ (sent (resp st) = None → resp st' = error_response (resp st) msg code).
Proof.
  destruct st as [wd [h s b]]. run. eexists. split; [reflexivity|].
  split; [done|]. cbn. by intros ->.
Qed.

(** C10: for every POST request whose form has no file under "file",
    [FormFile] returns an error and no file; [upload] logs the error and
    panics on the nil file before it creates anything, and the recover of
    ServeHTTP answers with the 500 of [http.Error]: the disk is as before,
    the log has the one line more, no redirect is sent. *)
Theorem upload_without_file (lib : Library) (fs : FileServer) (req : Request) (err : string) :
  Method req = "POST" → FormFile req "file" = FormFileErr err →
  (∀ st, ServeHTTP_switch lib fs req st
         = (add_logs [no_file_line err] st, Panicking nil_dereference))
  ∧ (∀ st, ServeHTTP lib fs req st
           = http_Error nil_dereference StatusInternalServerError
               (add_logs [no_file_line err] st))
  ∧ (BasicAuth fs = "" →
     ∀ wd, serve lib fs req wd
           = ({| disk := disk wd; fault := fault wd;
                 logs := logs wd ++ [no_file_line err] |},
              error_response new_response nil_dereference StatusInternalServerError)).
Proof.
  intros Hpost Hfile.
  assert (∀ st, ServeHTTP_switch lib fs req st
                = (add_logs [no_file_line err] st, Panicking nil_dereference)) as Hswitch.
  { intros [wd w]. unfold ServeHTTP_switch. rewrite Hpost.
    rewrite bool_decide_false by done. rewrite bool_decide_true by done.
    unfold upload. by rewrite Hfile. }
  assert (∀ st, ServeHTTP lib fs req st
                = http_Error nil_dereference StatusInternalServerError
                    (add_logs [no_file_line err] st)) as Hserve.
  { intros st. unfold ServeHTTP. by rewrite Hswitch. }
  split_and!; [done|done|]. intros Hauth wd. unfold serve, Start_router.
  rewrite bool_decide_false by (by intros []). by rewrite Hserve.
Qed.

Lemma upload_without_file_witness :
  serve demo_lib demo_fs (demo_request "POST" "/docs/") demo_world
  = ({| disk := demo_disk; fault := demo_fault;
        logs := [no_file_line "http: no such file"] |},
     error_response new_response nil_dereference StatusInternalServerError).
Proof.
  apply (upload_without_file demo_lib demo_fs (demo_request "POST" "/docs/")
           "http: no such file"); reflexivity.
Defined.

(** C8: whenever the handling of a request panics, ServeHTTP recovers:
    it returns normally, so the panic goes no further; the state is the one
    at the panic with [http.Error] run on it, so nothing done before the
    panic is undone; and since the handlers panic before their first write,
    the response is the 500 of [http.Error] with the panic value. *)
Theorem ServeHTTP_recovers (lib : Library) (fs : FileServer) (req : Request) (st : State) :
  (∃ st', ServeHTTP lib fs req st = (st', Normal tt))
  ∧ ∀ st1 v, ServeHTTP_switch lib fs req st = (st1, Panicking v) →
      resp st1 = resp st
      ∧ disk (world st1) = disk (world st)
      ∧ ∃ st', ServeHTTP lib fs req st = (st', Normal tt)
          ∧ http_Error v StatusInternalServerError st1 = (st', Normal tt)
          ∧ world st' = world st1
          ∧ (sent (resp st) = None →
             resp st' = error_response (resp st) v StatusInternalServerError).
Proof.
  split.
  - unfold ServeHTTP. destruct (ServeHTTP_switch lib fs req st) as [st1 [[]|v]].
    + by eexists.
    + destruct (http_Error_run v StatusInternalServerError st1) as (st' & H & _).
      by exists st'.
  - intros st1 v Hpanic.
    assert (resp st1 = resp st ∧ disk (world st1) = disk (world st)) as [Hresp Hdisk].
    { unfold ServeHTTP_switch in Hpanic.
      destruct (bool_decide (Method req = "GET")).
      - destruct (handler_outcome lib fs req st) as [[st' H]|H];
          rewrite H in Hpanic; [done|]. by injection Hpanic as <- <-.
      - destruct (bool_decide (Method req = "POST")); [|done].
        destruct (upload_outcome lib fs req st) as [[st' H]|(err & _ & H)];
          rewrite H in Hpanic; [done|]. by injection Hpanic as <- <-. }
    split_and!; [done|done|].
    destruct (http_Error_run v StatusInternalServerError st1) as (st' & H & Hw & Hr).
    exists st'. unfold ServeHTTP. rewrite Hpanic.
    split_and!; [done|done|done|]. rewrite Hresp in Hr. done.
Qed.

Lemma ServeHTTP_recovers_witness :
  ServeHTTP_switch demo_lib demo_fs (demo_request "GET" "/docs/report.txt")
    {| world := demo_world_no_stat; resp := new_response |}
  = (add_logs [access_record (demo_request "GET" "/docs/report.txt") "200"]
       {| world := demo_world_no_stat; resp := new_response |},
     Panicking nil_dereference)
  ∧ ∃ st', ServeHTTP demo_lib demo_fs (demo_request "GET" "/docs/report.txt")
             {| world := demo_world_no_stat; resp := new_response |} = (st', Normal tt)
      ∧ logs (world st')
        = [AccessLog "10.0.0.7:40000" "GET" "/docs/report.txt" "HTTP/1.1" "200"]
      ∧ resp st' = error_response new_response nil_dereference StatusInternalServerError.
Proof.
  split; [reflexivity|].
  destruct (ServeHTTP_recovers demo_lib demo_fs (demo_request "GET" "/docs/report.txt")
              {| world := demo_world_no_stat; resp := new_response |}) as [_ H].
  destruct (H _ _ eq_refl) as (_ & _ & st' & Hserve & _ & Hworld & Hresp).
  exists st'. split; [exact Hserve|]. rewrite Hworld.
  split; [reflexivity|exact (Hresp eq_refl)].
Defined.

(** * Further properties of the handlers *)

(** ** GET *)

Lemma ServeHTTP_GET lib fs req st r :
  Method req = "GET" → handler lib fs req st = (r, Normal tt) →
  ServeHTTP lib fs req st = (r, Normal tt).
Proof.
  intros Hget Hrun. unfold ServeHTTP, ServeHTTP_switch.
  rewrite bool_decide_true by done. by rewrite Hrun.
Qed.

(** X1: a GET of /favicon.ico is ignored: ServeHTTP returns with the state
    it got, whatever the disk holds under that name; nothing is opened,
    logged or written. *)
Theorem favicon_ignored (lib : Library) (fs : FileServer) (req : Request) (st : State) :
  Method req = "GET" → URL_Path req = "/favicon.ico" →
  handler_open fs (URL_Path req) = None
  ∧ ServeHTTP lib fs req st = (st, Normal tt).
Proof.
  intros Hget Hpath.
  assert (handler_open fs (URL_Path req) = None) as Hopen by (by rewrite Hpath).
  split; [done|]. apply ServeHTTP_GET; [done|].
  unfold handler. by rewrite Hopen.
Qed.

Lemma favicon_ignored_witness :
  ServeHTTP demo_lib demo_fs (demo_request "GET" "/favicon.ico")
    {| world := {| disk := <["/srv/www/favicon.ico" := RegularFile "icon"]> demo_disk;
                   fault := demo_fault; logs := [] |};
       resp := new_response |}
  = ({| world := {| disk := <["/srv/www/favicon.ico" := RegularFile "icon"]> demo_disk;
                    fault := demo_fault; logs := [] |};
        resp := new_response |}, Normal tt).
Proof.
  apply (favicon_ignored demo_lib demo_fs (demo_request "GET" "/favicon.ico"));
    reflexivity.
Defined.

(** X2: a GET of a regular file that opens appends the access record
    "200" to the log and the bytes of the file, unchanged, to the body;
    the disk is as before. *)
Theorem GET_regular_file (lib : Library) (fs : FileServer) (req : Request)
    (opened : string) (file : File) (data : string) (st : State) :
  Method req = "GET" →
  handler_open fs (URL_Path req) = Some opened →
  os_Open (world st) opened = inl file →
  File_Stat_IsDir (world st) file = Some false →
  file_node file = RegularFile data →
  ServeHTTP lib fs req st
  = (add_chunks [data] (add_logs [access_record req "200"] st), Normal tt).
Proof.
  intros Hget Hopen Hfile Hstat Hnode. apply ServeHTTP_GET; [done|].
  destruct st as [wd w]. cbn [world] in *. unfold handler. rewrite Hopen.
  run. rewrite Hfile.
  change (File_Stat_IsDir _ file) with (File_Stat_IsDir wd file).
  rewrite Hstat. unfold sendFile. rewrite Hnode.
  change (Write data) with (write_all [data] ≫= λ _, mret tt).
  unfold mbind, M_bind. rewrite write_all_chunks. reflexivity.
Qed.

Lemma GET_regular_file_witness :
  ServeHTTP demo_lib demo_fs (demo_request "GET" "/docs/../docs/report.txt") demo_state
  = (add_chunks ["old"]
       (add_logs [access_record (demo_request "GET" "/docs/../docs/report.txt") "200"]
          demo_state), Normal tt).
Proof.
  apply (GET_regular_file demo_lib demo_fs (demo_request "GET" "/docs/../docs/report.txt")
           "/srv/www/docs/report.txt"
           {| file_name := "/srv/www/docs/report.txt"; file_node := RegularFile "old" |});
    reflexivity.
Defined.

(** X3: a GET of a directory that opens and lists appends the access
    record "200" and writes what the template "index", with the text
    "display", makes of the request path as it came (not cleaned) and the
    sorted items; the disk is as before. *)
Theorem GET_directory (lib : Library) (fs : FileServer) (req : Request)
    (opened : string) (file : File) (fis : list FileInfo) (st : State) :
  Method req = "GET" →
  handler_open fs (URL_Path req) = Some opened →
  os_Open (world st) opened = inl file →
  File_Stat_IsDir (world st) file = Some true →
  File_Readdir (world st) file = inl fis →
  ServeHTTP lib fs req st
  = (add_chunks
       (template_Execute lib "index" (myhtml_GetTemplate lib "display")
          (Some {| Path := URL_Path req;
                   Content := processDir_items lib (URL_Path req) fis |}))
       (add_logs [access_record req "200"] st), Normal tt).
Proof.
  intros Hget Hopen Hfile Hstat Hdir. apply ServeHTTP_GET; [done|].
  destruct st as [wd w]. cbn [world] in *. unfold handler. rewrite Hopen.
  run. rewrite Hfile.
  change (File_Stat_IsDir _ file) with (File_Stat_IsDir wd file).
  rewrite Hstat. unfold processDir. run.
  change (File_Readdir _ file) with (File_Readdir wd file).
  rewrite Hdir. unfold template_run. by rewrite write_all_chunks.
Qed.

Lemma GET_directory_witness :
  ServeHTTP demo_lib demo_fs (demo_request "GET" "/docs//") demo_state
  = (add_chunks ["<display>"; "%2Fdocs%2Freport.txt report.txt"]
       (add_logs [access_record (demo_request "GET" "/docs//") "200"] demo_state),
     Normal tt).
Proof.
  apply (GET_directory demo_lib demo_fs (demo_request "GET" "/docs//") "/srv/www/docs"
           {| file_name := "/srv/www/docs";
              file_node := Directory [plain_file "report.txt"] |}
           [plain_file "report.txt"]); reflexivity.
Defined.

(** X4: when opening fails with an error that is neither "does not exist"
    nor "permission", the handler logs the error on the standard logger and
    returns: no access record, no error page, nothing written, so the
    client gets the empty 200 of net/http. *)
Theorem GET_other_open_error (lib : Library) (fs : FileServer) (req : Request)
    (opened : string) (err : errno) (st : State) :
  Method req = "GET" →
  handler_open fs (URL_Path req) = Some opened →
  os_Open (world st) opened = inr err →
  os_IsNotExist err = false → os_IsPermission err = false →
  ServeHTTP lib fs req st
  = (add_logs [StdLog (PathError_text "open" opened err)] st, Normal tt)
  ∧ (resp st = new_response →
     finish_request (resp (add_logs [StdLog (PathError_text "open" opened err)] st))
     = empty_200).
Proof.
  intros Hget Hopen Herr Hne Hperm. split.
  - apply ServeHTTP_GET; [done|].
    destruct st as [wd w]. cbn [world] in *. unfold handler. rewrite Hopen.
    run. rewrite Herr, Hne, Hperm. reflexivity.
  - cbn [add_logs resp]. by intros ->.
Qed.

Lemma GET_other_open_error_witness :
  ServeHTTP demo_lib demo_fs (demo_request "GET" "/docs")
    {| world := {| disk := demo_disk;
                   fault := λ call name, match call with SysOpen => Some EIO | _ => None end;
                   logs := [] |};
       resp := new_response |}
  = ({| world := {| disk := demo_disk;
                    fault := λ call name, match call with SysOpen => Some EIO | _ => None end;
                    logs := [StdLog "open /srv/www/docs: input/output error"] |};
        resp := new_response |}, Normal tt).
Proof.
  apply (GET_other_open_error demo_lib demo_fs (demo_request "GET" "/docs")
           "/srv/www/docs" EIO); reflexivity.
Defined.

(** X5: when the directory opens but cannot be listed, the access record
    "200" is already in the log: the handler adds the record "404" and the
    message after it and writes the 404 page. *)
Theorem GET_directory_unreadable (lib : Library) (fs : FileServer) (req : Request)
    (opened : string) (file : File) (err : errno) (st : State) :
  Method req = "GET" →
  handler_open fs (URL_Path req) = Some opened →
  os_Open (world st) opened = inl file →
  File_Stat_IsDir (world st) file = Some true →
  File_Readdir (world st) file = inr err →
  ServeHTTP lib fs req st
  = (after_404 lib req (add_logs [access_record req "200"] st), Normal tt)
  ∧ logs (world (after_404 lib req (add_logs [access_record req "200"] st)))
    = logs (world st) ++ [access_record req "200"; access_record req "404";
                          MessageLog "404:   File not found"].
Proof.
  intros Hget Hopen Hfile Hstat Hdir. split.
  - apply ServeHTTP_GET; [done|].
    destruct st as [wd w]. cbn [world] in *. unfold handler. rewrite Hopen.
    run. rewrite Hfile.
    change (File_Stat_IsDir _ file) with (File_Stat_IsDir wd file).
    rewrite Hstat. unfold processDir. run.
    change (File_Readdir _ file) with (File_Readdir wd file).
    rewrite Hdir. apply handle404_run.
  - cbn. by rewrite <- app_assoc.
Qed.

Lemma GET_directory_unreadable_witness :
  logs (world (ServeHTTP demo_lib demo_fs (demo_request "GET" "/docs")
    {| world := {| disk := demo_disk;
                   fault := λ call name, match call with SysReaddir => Some EIO | _ => None end;
                   logs := [] |};
       resp := new_response |}).1)
  = [AccessLog "10.0.0.7:40000" "GET" "/docs" "HTTP/1.1" "200";
     AccessLog "10.0.0.7:40000" "GET" "/docs" "HTTP/1.1" "404";
     MessageLog "404:   File not found"].
Proof.
  pose proof (GET_directory_unreadable demo_lib demo_fs (demo_request "GET" "/docs")
                "/srv/www/docs"
                {| file_name := "/srv/www/docs";
                   file_node := Directory [plain_file "report.txt"] |} EIO
                {| world := {| disk := demo_disk;
                               fault := λ call name,
                                 match call with SysReaddir => Some EIO | _ => None end;
                               logs := [] |};
                   resp := new_response |}
                eq_refl eq_refl eq_refl eq_refl eq_refl) as [Hrun Hlogs].
  rewrite Hrun. exact Hlogs.
Defined.

(** ** The status of the error pages *)

(** Writing at least one chunk sends the header, with status 200 if it
    had not been sent. *)
Lemma add_chunks_sent chunks st :
  chunks ≠ [] →
  sent (resp (add_chunks chunks st))
  = Some (default (StatusOK, Header (resp st)) (sent (resp st))).
Proof.
  destruct st as [wd w]. unfold add_chunks. cbn [resp].
  destruct chunks as [|c chunks]; [done|]. intros _. simpl.
  assert (∀ w', sent w' = Some (default (StatusOK, Header w) (sent w)) →
                sent (fold_left write_chunk chunks w')
                = Some (default (StatusOK, Header w) (sent w))) as H.
  { induction chunks as [|c' chunks IH]; intros w' Hw'; [done|].
    simpl. apply IH. simpl. by rewrite Hw'. }
  by apply H.
Qed.

Lemma handler_not_exist_run lib fs req opened err st :
  handler_open fs (URL_Path req) = Some opened →
  os_Open (world st) opened = inr err →
  os_IsNotExist err = true →
  handler lib fs req st = (after_404 lib req st, Normal tt).
Proof.
  intros Hopen Herr Hne. destruct st as [wd w]. cbn [world] in *.
  unfold handler. rewrite Hopen. run. rewrite Herr, Hne. apply handle404_run.
Qed.

Lemma handler_permission_run lib fs req opened err st :
  handler_open fs (URL_Path req) = Some opened →
  os_Open (world st) opened = inr err →
  os_IsNotExist err = false → os_IsPermission err = true →
  handler lib fs req st = (after_500 lib req st, Normal tt).
Proof.
  intros Hopen Herr Hne Hperm. destruct st as [wd w]. cbn [world] in *.
  unfold handler. rewrite Hopen. run. rewrite Herr, Hne, Hperm.
  apply handle500_run.
Qed.

(** X6: the error pages never set a status: when the 404 or the 500 page
    is the first thing written to the response and the template writes
    anything, the status line that goes out is 200, with the headers as
    they were. *)
Theorem error_page_status_200 (lib : Library) (fs : FileServer) (req : Request)
    (opened : string) (err : errno) (st : State) :
  Method req = "GET" →
  handler_open fs (URL_Path req) = Some opened →
  os_Open (world st) opened = inr err →
  os_IsNotExist err = true ∨ os_IsPermission err = true →
  error_page lib "404" ≠ [] → error_page lib "500" ≠ [] →
  sent (resp st) = None →
  ∃ st', ServeHTTP lib fs req st = (st', Normal tt)
    ∧ sent (resp st') = Some (StatusOK, Header (resp st)).
Proof.
  intros Hget Hopen Herr Hkind H404 H500 Hsent.
  destruct (os_IsNotExist err) eqn:Hne.
  - exists (after_404 lib req st). split.
    + apply ServeHTTP_GET; [done|]. by apply (handler_not_exist_run _ _ _ opened err).
    + unfold after_404. rewrite add_chunks_sent by done. cbn. by rewrite Hsent.
  - destruct Hkind as [?|Hperm]; [done|].
    exists (after_500 lib req st). split.
    + apply ServeHTTP_GET; [done|].
      by apply (handler_permission_run _ _ _ opened err).
    + unfold after_500. rewrite add_chunks_sent by done. cbn. by rewrite Hsent.
Qed.

Lemma error_page_status_200_witness :
  ∃ st', ServeHTTP demo_lib demo_fs (demo_request "GET" "/missing/file.txt") demo_state
         = (st', Normal tt)
    ∧ sent (resp st') = Some (StatusOK, ∅).
Proof.
  apply (error_page_status_200 demo_lib demo_fs (demo_request "GET" "/missing/file.txt")
           "/srv/www/missing/file.txt" ENOENT demo_state); try reflexivity;
    try discriminate.
  by left.
Defined.

(** ** What a request leaves of the world *)

Lemma log_extension_refl wd : log_extension wd wd.
Proof. split_and!; [done|done|]. exists []. by rewrite app_nil_r. Qed.

Lemma log_extension_trans wd1 wd2 wd3 :
  log_extension wd1 wd2 → log_extension wd2 wd3 → log_extension wd1 wd3.
Proof.
  intros (Hd1 & Hf1 & rs1 & Hl1) (Hd2 & Hf2 & rs2 & Hl2).
  split_and!; [congruence|congruence|]. exists (rs1 ++ rs2).
  by rewrite Hl2, Hl1, app_assoc.
Qed.

Lemma log_extension_add_logs rs st : log_extension (world st) (world (add_logs rs st)).
Proof. split_and!; [done|done|]. by exists rs. Qed.

Lemma handler_log_extension lib fs req st :
  log_extension (world st) (world (handler lib fs req st).1).
Proof.
  destruct st as [wd w]. unfold handler.
  destruct (handler_open fs (URL_Path req)) as [opened|]; [|apply log_extension_refl].
  run. destruct (os_Open wd opened) as [file|err].
  - match goal with |- context [File_Stat_IsDir ?x file] =>
      destruct (File_Stat_IsDir x file) as [[|]|] end.
    + unfold processDir. run.
      match goal with |- context [File_Readdir ?x file] =>
        destruct (File_Readdir x file) end.
      * unfold template_run. rewrite write_all_chunks.
        apply (log_extension_add_logs _ {| world := wd; resp := w |}).
      * rewrite handle404_run. cbn [fst].
        apply (log_extension_trans _ _ _
                 (log_extension_add_logs [access_record req "200"]
                    {| world := wd; resp := w |})).
        apply (log_extension_add_logs _ (add_logs _ {| world := wd; resp := w |})).
    + unfold sendFile. destruct (file_node file); run;
        apply (log_extension_add_logs _ {| world := wd; resp := w |}).
    + apply (log_extension_add_logs _ {| world := wd; resp := w |}).
  - destruct (os_IsNotExist err).
    { rewrite handle404_run. apply (log_extension_add_logs _ {| world := wd; resp := w |}). }
    destruct (os_IsPermission err).
    { rewrite handle500_run. apply (log_extension_add_logs _ {| world := wd; resp := w |}). }
    apply (log_extension_add_logs _ {| world := wd; resp := w |}).
Qed.

Lemma http_Error_world msg code st : world (http_Error msg code st).1 = world st.
Proof. by destruct (http_Error_run msg code st) as (st' & -> & Hw & _). Qed.

Lemma ServeHTTP_not_POST_log_extension lib fs req st :
  Method req ≠ "POST" → log_extension (world st) (world (ServeHTTP lib fs req st).1).
Proof.
  intros Hpost. unfold ServeHTTP, ServeHTTP_switch.
  case_bool_decide as Hget.
  - pose proof (handler_log_extension lib fs req st) as Hext.
    destruct (handler lib fs req st) as [st' [[]|err]]; [done|].
    by rewrite http_Error_world.
  - rewrite bool_decide_eq_false_2 by done. apply log_extension_refl.
Qed.

Lemma basicAuth_world lib fs req st :
  world (basicAuth lib fs (ServeHTTP lib fs) req st).1 = world st
  ∨ world (basicAuth lib fs (ServeHTTP lib fs) req st).1
    = world (ServeHTTP lib fs req
               (Header_Set "WWW-Authenticate"
                  ("Basic realm=" +:+ quote +:+ "Restricted" +:+ quote) st).1).1.
Proof.
  destruct st as [wd w]. unfold basicAuth.
  destruct (Request_BasicAuth lib req) as [[username password]|].
  - destruct (bool_decide (username ≠ "gopher")), (bool_decide (password ≠ BasicAuth fs));
      cbn [orb]; run; try (by left).
    by right.
  - left. by run.
Qed.

(** X7: only a POST request writes to the disk.  Whatever a request with
    another method does through the registered handler (with or without
    basic auth, served, rejected, failed or recovered from a panic), the
    disk is the one before it; the world differs by records added to the
    log. *)
Theorem only_POST_writes (lib : Library) (fs : FileServer) (req : Request) (st : State) :
  Method req ≠ "POST" →
  log_extension (world st) (world (Start_router lib fs req st).1).
Proof.
  intros Hpost. unfold Start_router. case_bool_decide; [|by apply ServeHTTP_not_POST_log_extension].
  destruct (basicAuth_world lib fs req st) as [-> | ->]; [apply log_extension_refl|].
  by apply (ServeHTTP_not_POST_log_extension lib fs req
              (Header_Set "WWW-Authenticate" _ st).1).
Qed.

Lemma only_POST_writes_witness :
  disk (world (Start_router demo_lib demo_fs_auth
                 (demo_request "DELETE" "/docs/report.txt") demo_state).1)
  = demo_disk.
Proof.
  destruct (only_POST_writes demo_lib demo_fs_auth
              (demo_request "DELETE" "/docs/report.txt") demo_state) as (Hd & _);
    [done|]. exact Hd.
Defined.

(** ** What an upload leaves on the disk *)


Lemma truncate_ok wd call name data :
  fault wd call name = None →
  (∀ entries, disk wd !! name ≠ Some (Directory entries)) →
  truncate wd call name data = (set_disk (<[name := RegularFile data]> (disk wd)) wd, None).
Proof.
  intros Hf Hd. unfold truncate. rewrite Hf.
  destruct (disk wd !! name) as [[|entries]|] eqn:Hn; try done.
  by destruct (Hd entries).
Qed.

Lemma truncate_fault wd call name data e :
  fault wd call name = Some e → truncate wd call name data = (wd, Some e).
Proof. intros Hf. unfold truncate. by rewrite Hf. Qed.


Lemma ServeHTTP_upload_disk lib fs req file st :
  Method req = "POST" → FormFile req "file" = FormFileOk file →
  let savepath := upload_savepath fs (URL_Path req) (Filename file) in
  ∃ st', ServeHTTP lib fs req st = (st', Normal tt)
    ∧ disk (world st')
      = disk (truncate (truncate (world st) SysCreate savepath "").1
                SysWrite savepath (part_data file)).1.
Proof.
  intros Hpost Hfile savepath. unfold ServeHTTP, ServeHTTP_switch.
  rewrite bool_decide_eq_false_2 by (by rewrite Hpost).
  rewrite bool_decide_eq_true_2 by done.
  rewrite (upload_run _ _ _ _ _ Hfile).
  destruct (http_Redirect_run lib req (upload_target (URL_Path req)) StatusSeeOther
              (upload_before_redirect lib fs req file st)) as (st' & -> & Hw & _).
  exists st'. split; [done|]. rewrite Hw.
  apply upload_before_redirect_effects.
Qed.






(** X10: the destination is lost before the upload is known to work.
    [os.Create] truncates the destination first; if it succeeds and
    [ioutil.WriteFile] is then refused, the request leaves an empty file at
    the destination: what the file held before is gone and nothing of the
    upload is stored. *)
Theorem upload_refused_write_leaves_empty_file (lib : Library) (fs : FileServer)
    (req : Request) (file : FilePart) (st : State) (e : errno) :
  Method req = "POST" →
  FormFile req "file" = FormFileOk file →
  let savepath := upload_savepath fs (URL_Path req) (Filename file) in
  fault (world st) SysCreate savepath = None →
  (∀ entries, disk (world st) !! savepath ≠ Some (Directory entries)) →
  fault (world st) SysWrite savepath = Some e →
  ∃ st', ServeHTTP lib fs req st = (st', Normal tt)
    ∧ disk (world st') = <[savepath := RegularFile ""]> (disk (world st)).
Proof.
  intros Hpost Hfile savepath Hcreate Hdir Hwrite.
  destruct (ServeHTTP_upload_disk lib fs req file st Hpost Hfile) as (st' & Hrun & Hdisk).
  exists st'. split; [done|]. rewrite Hdisk. fold savepath.
  rewrite (truncate_ok _ SysCreate) by done. cbn [fst].
  by rewrite (truncate_fault _ _ _ _ e).
Qed.

Lemma upload_refused_write_leaves_empty_file_witness :
  ∃ st', ServeHTTP demo_lib demo_fs demo_upload
           {| world := demo_world_no_write; resp := new_response |} = (st', Normal tt)
    ∧ disk demo_world_no_write !! "/srv/www/docs/report.txt" = Some (RegularFile "old")
    ∧ disk (world st') !! "/srv/www/docs/report.txt" = Some (RegularFile "").
Proof.
  destruct (upload_refused_write_leaves_empty_file demo_lib demo_fs demo_upload demo_part
              {| world := demo_world_no_write; resp := new_response |} EACCES
              eq_refl eq_refl eq_refl) as (st' & Hrun & Hdisk); [done|reflexivity|].
  exists st'. split; [exact Hrun|]. rewrite Hdisk. split; reflexivity.
Defined.

(** ** The response to an upload of which a step failed *)

Lemma truncate_None wd call name data :
  (truncate wd call name data).2 = None →
  fault wd call name = None ∧ ∀ entries, disk wd !! name ≠ Some (Directory entries).
Proof.
  unfold truncate. destruct (fault wd call name); [done|].
  destruct (disk wd !! name) as [[]|]; by intros.
Qed.

Lemma add_chunks_sent_Some chunks st x :
  sent (resp st) = Some x → sent (resp (add_chunks chunks st)) = Some x.
Proof.
  destruct st as [wd w]. unfold add_chunks. cbn [resp]. revert w.
  induction chunks as [|c chunks IH]; intros w Hw; [done|].
  simpl. apply IH. simpl. by rewrite Hw.
Qed.

Lemma reported_sent lib req {E} (err : option E) msg st :
  error_page lib "500" ≠ [] →
  sent (resp (reported lib req err msg st))
  = match err with
    | Some _ => Some (default (StatusOK, Header (resp st)) (sent (resp st)))
    | None => sent (resp st)
    end.
Proof.
  intros Hpage. destruct err; [|done]. unfold reported, after_500.
  by rewrite add_chunks_sent.
Qed.

Lemma http_Redirect_sent_Some lib req url code st x :
  sent (resp st) = Some x → sent (resp (http_Redirect lib req url code st).1) = Some x.
Proof.
  destruct st as [wd [h s b]]. cbn [resp sent]. intros ->. unfold http_Redirect. run.
  destruct (bool_decide (Method req = "GET")), (bool_decide (Method req = "HEAD")),
    (bool_decide (is_Some (h !! "Content-Type"))); simpl; by run.
Qed.

(** X11: an upload of which a step failed is not answered with the
    redirect.  The error page of the first failed step is written before
    [http.Redirect] runs, and its first byte sends the header with status
    200; the Location header is set afterwards, on a response whose header
    is already out, and the status 303 is dropped.  (For a 500 page of at
    least one chunk and a response not yet sent.) *)
Theorem failed_upload_not_redirected (lib : Library) (fs : FileServer) (req : Request)
    (file : FilePart) (st : State) :
  Method req = "POST" →
  FormFile req "file" = FormFileOk file →
  sent (resp st) = None →
  error_page lib "500" ≠ [] →
  let savepath := upload_savepath fs (URL_Path req) (Filename file) in
  fault (world st) SysCreate savepath ≠ None
  ∨ (ioutil_ReadAll file).2 ≠ None
  ∨ fault (world st) SysWrite savepath ≠ None
  ∨ (∃ entries, disk (world st) !! savepath = Some (Directory entries)) →
  ∃ st', ServeHTTP lib fs req st = (st', Normal tt)
    ∧ sent (resp st') = Some (StatusOK, Header (resp st))
    ∧ Header (resp st') !! "Location"
      = Some (Redirect_location lib (URL_Path req) (upload_target (URL_Path req))).
Proof.
  intros Hpost Hfile Hsent Hpage savepath Hfail.
  unfold ServeHTTP, ServeHTTP_switch.
  rewrite bool_decide_eq_false_2 by (by rewrite Hpost).
  rewrite bool_decide_eq_true_2 by done.
  rewrite (upload_run _ _ _ _ _ Hfile).
  assert (sent (resp (upload_before_redirect lib fs req file st))
          = Some (StatusOK, Header (resp st))) as Hbefore.
  { unfold upload_before_redirect. fold savepath.
    pose proof (truncate_None (world st) SysCreate savepath "") as Hc.
    pose proof (truncate_keeps (world st) SysCreate savepath "") as [Hkeep _].
    destruct (truncate (world st) SysCreate savepath "") as [wd1 e1].
    cbn [fst snd] in Hc, Hkeep.
    set (st1 := reported lib req e1 msg_create (set_world wd1 st)).
    set (st2 := reported lib req (part_err file) msg_read st1).
    pose proof (truncate_None (world st2) SysWrite savepath (part_data file)) as Hw.
    destruct (truncate (world st2) SysWrite savepath (part_data file)) as [wd3 e3].
    cbn [fst snd] in Hw.
    cbn [add_logs resp].
    assert (Header (resp st1) = Header (resp st)) as Hh1
      by apply (reported_effects lib req e1 msg_create (set_world wd1 st)).
    assert (Header (resp st2) = Header (resp st)) as Hh2.
    { rewrite <- Hh1. apply (reported_effects lib req (part_err file) msg_read st1). }
    assert (sent (resp st1)
            = match e1 with Some _ => Some (StatusOK, Header (resp st)) | None => None end)
      as Hs1.
    { subst st1. rewrite reported_sent by done. cbn [set_world resp]. rewrite Hsent.
      by destruct e1. }
    assert (sent (resp st2)
            = match e1, part_err file with
              | None, None => None
              | _, _ => Some (StatusOK, Header (resp st))
              end) as Hs2.
    { subst st2. rewrite reported_sent by done. rewrite Hs1, Hh1.
      by destruct e1, (part_err file). }
    rewrite reported_sent by done. cbn [set_world resp]. rewrite Hs2, Hh2.
    destruct e1 as [?|]; [by destruct e3, (part_err file)|].
    destruct (part_err file) as [?|] eqn:Hread; [by destruct e3|].
    destruct e3 as [?|]; [done|]. exfalso.
    destruct (Hc eq_refl) as [Hcf Hcd]. destruct (Hw eq_refl) as [Hwf _].
    destruct Hfail as [Hf|[Hf|[Hf|[entries Hf]]]].
    - done.
    - unfold ioutil_ReadAll in Hf. cbn [snd] in Hf. by rewrite Hread in Hf.
    - apply Hf. rewrite <- Hwf. subst st2 st1. cbn [reported world set_world].
      by rewrite Hkeep.
    - by apply (Hcd entries). }
  destruct (http_Redirect_run lib req (upload_target (URL_Path req)) StatusSeeOther
              (upload_before_redirect lib fs req file st)) as (st' & Hrun & _ & Hloc & _).
  pose proof (http_Redirect_sent_Some lib req (upload_target (URL_Path req)) StatusSeeOther
                _ _ Hbefore) as Hafter.
  rewrite Hrun in Hafter |- *. by exists st'.
Qed.

Lemma failed_upload_not_redirected_witness :
  ∃ st', ServeHTTP demo_lib demo_fs demo_upload
           {| world := demo_world_no_create; resp := new_response |} = (st', Normal tt)
    ∧ sent (resp st') = Some (StatusOK, ∅)
    ∧ Header (resp st') !! "Location"
      = Some (Redirect_location demo_lib "/docs/" "/docs").
Proof.
  apply (failed_upload_not_redirected demo_lib demo_fs demo_upload demo_part
           {| world := demo_world_no_create; resp := new_response |}
           eq_refl eq_refl eq_refl); [done | by left].
Defined.

(** ** The challenge on the responses of a protected server *)

Lemma challenge_carried_write_chunk w c :
  challenge_carried w → challenge_carried (write_chunk w c).
Proof.
  intros [Hh Hs]. split; [done|]. intros code h. cbn [write_chunk sent].
  destruct (sent w) as [[code' h']|]; cbn [default]; intros [= <- <-]; [by eapply Hs|done].
Qed.

Lemma challenge_carried_add_chunks chunks st :
  challenge_carried (resp st) → challenge_carried (resp (add_chunks chunks st)).
Proof.
  destruct st as [wd w]. unfold add_chunks. cbn [resp]. revert w.
  induction chunks as [|c chunks IH]; intros w Hw; [done|].
  simpl. by apply IH, challenge_carried_write_chunk.
Qed.

Lemma challenge_carried_reported lib req {E} (err : option E) msg st :
  challenge_carried (resp st) → challenge_carried (resp (reported lib req err msg st)).
Proof.
  destruct err; [|done]. intros Hc. unfold reported, after_500.
  by apply challenge_carried_add_chunks.
Qed.

Lemma challenge_carried_http_Error msg code st :
  challenge_carried (resp st) → challenge_carried (resp (http_Error msg code st).1).
Proof.
  destruct st as [wd [h s b]]. intros [Hh Hs]. cbn [resp Header sent] in Hh, Hs.
  unfold http_Error. run. destruct s as [[code' h']|]; cbn [fst resp].
  - split; cbn [Header sent]; [by rewrite !lookup_insert_ne|].
    intros ?? [= <- <-]. by eapply Hs.
  - split; cbn [Header sent]; [by rewrite !lookup_insert_ne|].
    intros ?? [= <- <-]. by rewrite !lookup_insert_ne.
Qed.

Lemma challenge_carried_http_Redirect lib req url code st :
  challenge_carried (resp st) → challenge_carried (resp (http_Redirect lib req url code st).1).
Proof.
  destruct st as [wd [h s b]]. intros [Hh Hs]. cbn [resp Header sent] in Hh, Hs.
  unfold http_Redirect. run.
  destruct (bool_decide (Method req = "GET")), (bool_decide (Method req = "HEAD")),
    (bool_decide (is_Some (h !! "Content-Type"))); simpl; run;
    destruct s as [[code' h']|]; cbn [fst resp]; (split; cbn [Header sent];
      [by rewrite ?lookup_insert_ne by done
      |intros ?? [= <- <-]; first [by eapply Hs | by rewrite ?lookup_insert_ne by done]]).
Qed.

Lemma challenge_carried_handler lib fs req st :
  challenge_carried (resp st) → challenge_carried (resp (handler lib fs req st).1).
Proof.
  destruct st as [wd w]. cbn [resp]. intros Hc. unfold handler.
  destruct (handler_open fs (URL_Path req)) as [opened|]; [|done].
  run. destruct (os_Open wd opened) as [file|err].
  - match goal with |- context [File_Stat_IsDir ?x file] =>
      destruct (File_Stat_IsDir x file) as [[|]|] end.
    + unfold processDir. run.
      match goal with |- context [File_Readdir ?x file] =>
        destruct (File_Readdir x file) end.
      * unfold template_run. rewrite write_all_chunks.
        by apply (challenge_carried_add_chunks _ {| world := _; resp := w |}).
      * rewrite handle404_run. cbn [fst]. unfold after_404.
        by apply (challenge_carried_add_chunks _ (add_logs _ {| world := _; resp := w |})).
    + unfold sendFile. destruct (file_node file); run; [|done].
      destruct Hc as [Hh Hs]. destruct w as [h [[code' h']|] b]; cbn in *;
        (split; [done|]); intros ?? [= <- <-]; [by eapply Hs|done].
    + done.
  - destruct (os_IsNotExist err).
    { rewrite handle404_run. unfold after_404.
      by apply (challenge_carried_add_chunks _ (add_logs _ {| world := wd; resp := w |})). }
    destruct (os_IsPermission err); [|done].
    rewrite handle500_run. unfold after_500.
    by apply (challenge_carried_add_chunks _ (add_logs _ {| world := wd; resp := w |})).
Qed.

Lemma challenge_carried_upload lib fs req st :
  challenge_carried (resp st) → challenge_carried (resp (upload lib fs req st).1).
Proof.
  intros Hc. destruct (FormFile req "file") as [file|err] eqn:Hfile.
  - rewrite (upload_run _ _ _ _ _ Hfile). apply challenge_carried_http_Redirect.
    unfold upload_before_redirect.
    destruct (truncate (world st) SysCreate _ "") as [wd1 e1].
    match goal with |- context [truncate ?x SysWrite ?y ?z] =>
      destruct (truncate x SysWrite y z) as [wd3 e3] end.
    cbn [add_logs resp].
    apply challenge_carried_reported. cbn [set_world resp].
    by do 2 apply challenge_carried_reported.
  - unfold upload. rewrite Hfile. destruct st as [wd w]. by run.
Qed.

Lemma challenge_carried_ServeHTTP lib fs req st :
  challenge_carried (resp st) → challenge_carried (resp (ServeHTTP lib fs req st).1).
Proof.
  intros Hc. unfold ServeHTTP, ServeHTTP_switch.
  case_bool_decide; [|case_bool_decide; [|done]].
  - pose proof (challenge_carried_handler lib fs req st Hc) as Hh.
    destruct (handler lib fs req st) as [st' [[]|err]]; [done|].
    by apply challenge_carried_http_Error.
  - pose proof (challenge_carried_upload lib fs req st Hc) as Hu.
    destruct (upload lib fs req st) as [st' [[]|err]]; [done|].
    by apply challenge_carried_http_Error.
Qed.

(** X12: on a server with a secret, every response carries the challenge,
    the response to an accepted request as well.  basicAuth sets
    WWW-Authenticate before it looks at the credentials and nothing after it
    removes a header, so whatever the request and the state of the disk, the
    header that goes out holds [WWW-Authenticate: Basic realm="Restricted"]. *)
Theorem challenge_on_every_response (lib : Library) (fs : FileServer) (req : Request)
    (wd : World) :
  BasicAuth fs ≠ "" →
  ∃ code h, sent (serve lib fs req wd).2 = Some (code, h)
    ∧ h !! "WWW-Authenticate" = Some challenge_value.
Proof.
  intros Hauth.
  assert (challenge_carried
            (resp (Start_router lib fs req {| world := wd; resp := new_response |}).1))
    as [Hh Hs].
  { unfold Start_router. rewrite bool_decide_eq_true_2 by done.
    assert (challenge_carried (resp (challenged {| world := wd; resp := new_response |})))
      as Hc by (split; [done|by intros]).
    unfold basicAuth.
    destruct (Request_BasicAuth lib req) as [[username password]|].
    - destruct (bool_decide (username ≠ "gopher")),
        (bool_decide (password ≠ BasicAuth fs)); cbn [orb].
      4: { apply (challenge_carried_ServeHTTP lib fs req) in Hc. revert Hc.
           unfold challenged, challenge_value. by run. }
      all: apply (challenge_carried_http_Error "Not authorized" StatusUnauthorized) in Hc;
        revert Hc; unfold challenged, challenge_value; by run.
    - apply (challenge_carried_http_Error "Not authorized" StatusUnauthorized) in Hc.
      revert Hc. unfold challenged, challenge_value. by run. }
  unfold serve.
  destruct (Start_router lib fs req {| world := wd; resp := new_response |}) as [st o].
  cbn [fst snd] in *. unfold finish_request.
  destruct (sent (resp st)) as [[code h]|] eqn:Hsent.
  - exists code, h. split; [done|]. by eapply Hs.
  - by exists StatusOK, (Header (resp st)).
Qed.

Lemma challenge_on_every_response_witness :
  ∃ code h,
    sent (serve demo_lib demo_fs_auth
            (with_authorization "Basic gopher:s3cret"
               (demo_request "GET" "/docs/report.txt")) demo_world).2 = Some (code, h)
    ∧ h !! "WWW-Authenticate" = Some challenge_value.
Proof.
  apply (challenge_on_every_response demo_lib demo_fs_auth
           (with_authorization "Basic gopher:s3cret"
              (demo_request "GET" "/docs/report.txt")) demo_world).
  done.
Defined.

(** ** The bytes of a link *)

Lemma upperhex_not_escaped (c : ascii) :
  shouldEscape (upperhex_at (N.shiftr (N_of_ascii c) 4)) = false
  ∧ shouldEscape (upperhex_at (N.land (N_of_ascii c) 15)) = false.
Proof. destruct c as [[] [] [] [] [] [] [] []]; by vm_compute. Qed.

Lemma escape_write_alphabet s :
  Forall (λ c, c = "%"%char ∨ shouldEscape c = false)
    (list_ascii_of_string (escape_write s)).
Proof.
  induction s as [|c s IH]; [constructor|]. simpl.
  destruct (shouldEscape c) eqn:Hc; simpl.
  - destruct (upperhex_not_escaped c) as [Hhi Hlo].
    apply Forall_cons; split; [by left|].
    apply Forall_cons; split; [by right|].
    apply Forall_cons; split; [by right|done].
  - apply Forall_cons; split; [by right|done].
Qed.

Lemma escape_count_zero s :
  escape_count s = 0 →
  Forall (λ c, c = "%"%char ∨ shouldEscape c = false) (list_ascii_of_string s).
Proof.
  induction s as [|c s IH]; [constructor|]. simpl.
  destruct (shouldEscape c) eqn:Hc; [done|]. intros Hs.
  apply Forall_cons; split; [by right|by apply IH].
Qed.

Lemma url_PathEscape_alphabet s :
  Forall (λ c, c = "%"%char ∨ shouldEscape c = false)
    (list_ascii_of_string (url_PathEscape s)).
Proof.
  unfold url_PathEscape. destruct (Nat.eqb_spec (escape_count s) 0) as [Hz|Hz].
  - by apply escape_count_zero.
  - apply escape_write_alphabet.
Qed.

(** X13: the URI of an item of a listing is one path segment.  Every byte
    of it is a percent sign or a byte [url.PathEscape] leaves alone (a
    letter, a digit, one of [-_.~$&+:=@]); since processDir escapes the
    joined path as a whole, the slashes between the directories are escaped
    too, and the URI holds no slash, no space, no quote, no question mark
    and no number sign. *)
Theorem item_URI_alphabet (relpath : string) (fi : FileInfo) :
  Forall (λ c, c = "%"%char ∨ shouldEscape c = false)
    (list_ascii_of_string (URI (make_item relpath fi)))
  ∧ ∀ c, c ∈ list_ascii_of_string ("/ ?#" +:+ quote) →
         c ∉ list_ascii_of_string (URI (make_item relpath fi)).
Proof.
  assert (Forall (λ c, c = "%"%char ∨ shouldEscape c = false)
            (list_ascii_of_string (URI (make_item relpath fi)))) as Hall
    by apply url_PathEscape_alphabet.
  split; [done|]. intros c Hc Hin.
  rewrite Forall_forall in Hall. specialize (Hall c Hin).
  vm_compute in Hc.
  repeat (apply elem_of_cons in Hc as [->|Hc]; [by destruct Hall|]).
  by apply elem_of_nil in Hc.
Qed.

(** ** The comparison of the listing *)

Lemma string_lt_ties a b : string_lt a b = false ∧ string_lt b a = false ↔ a = b.
Proof.
  unfold string_lt, String.ltb. split.
  - intros [Hab Hba]. apply String.compare_eq_iff.
    rewrite (String.compare_antisym b a) in Hba.
    by destruct (String.compare a b).
  - intros ->. pose proof (String.compare_antisym b b) as Hbb.
    by destruct (String.compare b b).
Qed.

(** X14: the comparison processDir hands to [sort.Slice] is one
    [sort.Slice] can work with, whatever lowering does to names outside
    ASCII: no item is before itself, before is transitive, and so is being
    tied.  Two items are tied, neither before the other, exactly when their
    names are the same once lowered: names that differ in case only. *)
Theorem listing_order_valid (lib : Library) :
  strict_weak_order (less_lower lib)
  ∧ ∀ a b, less_lower lib a b = false ∧ less_lower lib b a = false
           ↔ strings_ToLower lib (Name a) = strings_ToLower lib (Name b).
Proof.
  split; [apply less_lower_strict_weak_order|].
  intros a b. apply string_lt_ties.
Qed.

(** ** Start *)

(** X15: a configured secret is written to the log in clear.  With basic
    auth on, the first line Start logs is the warning when SSL is off, and
    the next one, the first when SSL is on, holds the secret itself; this
    happens before the certificates are looked at, so also when Start then
    ends in [log.Fatal]. *)
Theorem Start_logs_secret {TLSConfig : Type} (ca : MyCA TLSConfig) (fs : FileServer) :
  BasicAuth fs ≠ "" →
  ∃ rest, (Start ca fs).1
    = (if SSL fs then [] else [StdLog warning_no_SSL])
      ++ StdLog ("Using 'gopher:" +:+ BasicAuth fs +:+ "' as basic auth") :: rest.
Proof.
  intros Hauth. unfold Start. rewrite bool_decide_eq_true_2 by done.
  destruct (SSL fs); cbn [negb app].
  - destruct (SelfSigned fs).
    + destruct (myca_Setup ca) as [[[conf fp256] fp1]|err]; by eexists.
    + destruct (bool_decide (MyCert fs = "") || bool_decide (MyKey fs = ""));
        [by eexists|].
      destruct (myca_ParseAndSum ca (MyCert fs)) as [[fp256 fp1]|err]; by eexists.
  - by eexists.
Qed.

Lemma Start_logs_secret_witness :
  ∃ rest, (Start demo_ca demo_fs_no_key).1
    = StdLog "Using 'gopher:s3cret' as basic auth" :: rest.
Proof. apply (Start_logs_secret demo_ca demo_fs_no_key). done. Defined.

(** X16: asked for SSL, Start never falls back to plain HTTP.  It ends in
    [log.Fatal] (status 1) or blocks in [ListenAndServeTLS] on [":" + Port];
    when it serves a certificate of the user's, both file names are the
    configured ones and neither is empty. *)
Theorem Start_SSL_never_plain {TLSConfig : Type} (ca : MyCA TLSConfig) (fs : FileServer) :
  SSL fs = true →
  (Start ca fs).2 = Exit 1
  ∨ ∃ conf certFile keyFile,
      (Start ca fs).2
      = Serve (ListenAndServeTLS (":" +:+ pretty (Port fs)) conf certFile keyFile)
      ∧ (SelfSigned fs = true → is_Some conf ∧ certFile = "" ∧ keyFile = "")
      ∧ (SelfSigned fs = false →
         conf = None ∧ certFile = MyCert fs ∧ keyFile = MyKey fs
         ∧ MyCert fs ≠ "" ∧ MyKey fs ≠ "").
Proof.
  intros Hssl. unfold Start. rewrite Hssl. destruct (SelfSigned fs).
  - destruct (myca_Setup ca) as [[[conf fp256] fp1]|err]; [|by left].
    right. exists (Some conf), "", "". by split_and!.
  - destruct (bool_decide (MyCert fs = "")) eqn:Hcert; [by left|].
    destruct (bool_decide (MyKey fs = "")) eqn:Hkey; [by left|]. cbn [orb].
    destruct (myca_ParseAndSum ca (MyCert fs)) as [[fp256 fp1]|err]; [|by left].
    right. exists None, (MyCert fs), (MyKey fs).
    apply bool_decide_eq_false in Hcert, Hkey. by split_and!.
Qed.

Lemma Start_SSL_never_plain_witness :
  (Start demo_ca demo_fs_no_key).2 = Exit 1
  ∨ ∃ conf certFile keyFile,
      (Start demo_ca demo_fs_no_key).2
      = Serve (ListenAndServeTLS ":8000" conf certFile keyFile)
      ∧ (false = true → is_Some conf ∧ certFile = "" ∧ keyFile = "")
      ∧ (false = false →
         conf = None ∧ certFile = "server.crt" ∧ keyFile = ""
         ∧ "server.crt" ≠ "" ∧ "" ≠ "").
Proof. apply (Start_SSL_never_plain demo_ca demo_fs_no_key). reflexivity. Defined.

(** X17: without the SSL flag the other TLS settings count for nothing.
    Start serves plain HTTP on [":" + Port], also when a self-signed
    certificate was asked for or a key and a certificate were given, and
    what it logs and does is that of any other server with the same port,
    root and secret, whatever package myca would return. *)
Theorem Start_without_SSL {TLSConfig : Type} (ca : MyCA TLSConfig) (fs : FileServer) :
  SSL fs = false →
  (Start ca fs).2 = Serve (ListenAndServe (":" +:+ pretty (Port fs)))
  ∧ ∀ (ca' : MyCA TLSConfig) (fs' : FileServer),
      SSL fs' = false → Port fs' = Port fs → Webroot fs' = Webroot fs →
      BasicAuth fs' = BasicAuth fs →
      Start ca' fs' = Start ca fs.
Proof.
  intros Hssl. unfold Start. rewrite Hssl. split; [done|].
  intros ca' fs' -> -> -> ->. done.
Qed.

Lemma Start_without_SSL_witness :
  (Start demo_ca demo_fs_selfsigned_only).2 = Serve (ListenAndServe ":8000")
  ∧ Start demo_ca demo_fs_selfsigned_only = Start demo_ca demo_fs.
Proof.
  destruct (Start_without_SSL demo_ca demo_fs_selfsigned_only eq_refl) as [Hend Hsame].
  split; [exact Hend|]. symmetry. by apply Hsame.
Defined.
